(** * FHIR package manager: cache, index and search

    A shallow embedding of [scripts/fhir_package_manager.py]
    (class [FHIRPackageManager]) and the properties its specification
    states about installing, indexing and searching packages.

    Modelling boundaries, stated once:
    - text is ASCII: Python [str] is [string], [str.lower] lowers A-Z;
    - a JSON number is kept by the text Python's [str()] prints for it;
    - a file is kept by what [open(path, 'r')] followed by [json.load]
      gives on it (a value or an exception);
    - a path is the list of its segments below the filesystem root;
      [package_id] and [version] are joined to the cache root as single
      segments, which is what [pathlib] does for a text that is not
      empty, not [.] or [..] and has no [/] ([plain_segment]); the
      names of archive members are lists of segments appended to the
      destination, which is what [tarfile] and [zipfile] do for names
      made of such segments ([plain_member]); a resource type is read
      literally in the glob pattern, which is what [pathlib] does for a
      text with none of the characters of a glob ([glob_literal]).
      Properties that hold only inside one of these readings state it as
      a hypothesis;
    - a directory lists its entries in the order [os.scandir] reports
      them; symbolic links and permissions are not modelled;
    - the registry answers a URL the same way each time it is asked;
      [requests] is version 2.27 or later, where a body that is not JSON
      raises a [RequestException];
    - what the program prints is left out. *)

From Stdlib Require Import String Ascii List Bool Arith Lia.
Import ListNotations.
Local Open Scope list_scope.
Local Open Scope string_scope.

(* ================================================================== *)
(** * Python values and exceptions *)
(* ================================================================== *)

(** What [json.load] returns. [JNull] is Python's [None]. *)
#[warnings="-register-all"]
Inductive json : Type :=
| JNull
| JBool (b : bool)
| JNum (text : string)
| JStr (s : string)
| JArr (items : list json)
| JObj (fields : list (string * json)).

(** A Python [dict] with string keys, in insertion order. *)
Definition dict := list (string * json).

(** The exception classes the program can meet.  [OSError] stands for
    the class Python 3 also calls [IOError], with all its subclasses
    ([FileNotFoundError], [IsADirectoryError], ...). *)
Inductive exn : Type :=
| JSONDecodeError
| OSError (what : string)
| UnicodeDecodeError
| AttributeError
| TypeError
| ValueError (msg : string)
| RequestException
| ReadError
| BadZipFile.

Inductive result (A : Type) : Type :=
| Ok (a : A)
| Raise (e : exn).
Arguments Ok {A} a.
Arguments Raise {A} e.

(* ------------------------------------------------------------------ *)
(** ** Strings *)

Definition lower_char (c : ascii) : ascii :=
  let n := nat_of_ascii c in
  if ((65 <=? n) && (n <=? 90))%nat then ascii_of_nat (n + 32) else c.

(** [str.lower()] *)
Fixpoint lower (s : string) : string :=
  match s with
  | EmptyString => EmptyString
  | String c s' => String (lower_char c) (lower s')
  end.

(** [sub in s] on strings *)
Fixpoint py_in (sub s : string) : bool :=
  prefix sub s ||
  match s with
  | EmptyString => false
  | String _ s' => py_in sub s'
  end.

(** [s.endswith(suffix)] *)
Fixpoint endswith (s suffix : string) : bool :=
  (s =? suffix) ||
  match s with
  | EmptyString => false
  | String _ s' => endswith s' suffix
  end.

(** [sep.join(parts)] *)
Fixpoint join (sep : string) (parts : list string) : string :=
  match parts with
  | [] => EmptyString
  | [p] => p
  | p :: rest => p ++ sep ++ join sep rest
  end.

Definition dquote : ascii := ascii_of_nat 34.
Definition squote : ascii := ascii_of_nat 39.
Definition backslash : ascii := ascii_of_nat 92.

Fixpoint has_char (c : ascii) (s : string) : bool :=
  match s with
  | EmptyString => false
  | String d s' => (d =? c)%char || has_char c s'
  end.

Definition hex_digit (n : nat) : ascii :=
  nth n (list_ascii_of_string "0123456789abcdef") "0"%char.

(** One character of [repr] of a [str] delimited by quote [q]. *)
Definition repr_char (q c : ascii) : string :=
  let n := nat_of_ascii c in
  if (c =? q)%char || (c =? backslash)%char then String backslash (String c EmptyString)
  else if (n =? 9)%nat then String backslash "t"
  else if (n =? 10)%nat then String backslash "n"
  else if (n =? 13)%nat then String backslash "r"
  else if ((n <? 32) || (n =? 127))%nat then
    String backslash (String "x" (String (hex_digit (n / 16)) (String (hex_digit (n mod 16)) EmptyString)))
  else String c EmptyString.

Fixpoint repr_chars (q : ascii) (s : string) : string :=
  match s with
  | EmptyString => EmptyString
  | String c s' => repr_char q c ++ repr_chars q s'
  end.

(** [repr] of a [str]: single quotes, unless the text has a single
    quote and no double quote. *)
Definition repr_str (s : string) : string :=
  let q := if has_char squote s && negb (has_char dquote s) then dquote else squote in
  String q (repr_chars q s ++ String q EmptyString).

(** [repr(v)] *)
Fixpoint py_repr (v : json) : string :=
  match v with
  | JNull => "None"
  | JBool true => "True"
  | JBool false => "False"
  | JNum t => t
  | JStr s => repr_str s
  | JArr l => "[" ++ join ", " (map py_repr l) ++ "]"
  | JObj kv =>
      "{" ++ join ", " (map (fun e => repr_str (fst e) ++ ": " ++ py_repr (snd e)) kv) ++ "}"
  end.

(** [str(v)]: a [str] is itself, anything else prints as its [repr]. *)
Definition py_str (v : json) : string :=
  match v with
  | JStr s => s
  | _ => py_repr v
  end.

(** Truth value of a value in [if v] / [if not v]. *)
Definition truthy (v : json) : bool :=
  match v with
  | JNull => false
  | JBool b => b
  | JNum t => negb ((t =? "0") || (t =? "0.0") || (t =? "-0.0"))
  | JStr s => negb (s =? EmptyString)
  | JArr l => match l with [] => false | _ => true end
  | JObj kv => match kv with [] => false | _ => true end
  end.

(** Truth value of an optional [str] argument ([None] or a string). *)
Definition truthy_arg (a : option string) : bool :=
  match a with
  | None => false
  | Some s => negb (s =? EmptyString)
  end.

(* ------------------------------------------------------------------ *)
(** ** Dictionaries *)

Fixpoint assoc {A : Type} (k : string) (l : list (string * A)) : option A :=
  match l with
  | [] => None
  | (k', v) :: l' => if k' =? k then Some v else assoc k l'
  end.

(** [d[k] = v]: in place when the key is there, at the end otherwise. *)
Fixpoint set_entry {A : Type} (k : string) (v : A) (l : list (string * A))
  : list (string * A) :=
  match l with
  | [] => [(k, v)]
  | (k', v') :: l' =>
      if k' =? k then (k, v) :: l' else (k', v') :: set_entry k v l'
  end.

(** [d.get(k, default)] *)
Definition get_default (d : dict) (k : string) (default : json) : json :=
  match assoc k d with
  | Some v => v
  | None => default
  end.

(** [d.get(k)] *)
Definition get (d : dict) (k : string) : json := get_default d k JNull.

(** [v.get(k, default)] on an arbitrary value: only a [dict] has [get]. *)
Definition value_get (v : json) (k : string) (default : json) : result json :=
  match v with
  | JObj d => Ok (get_default d k default)
  | _ => Raise AttributeError
  end.

(* ================================================================== *)
(** * The filesystem *)
(* ================================================================== *)

(** A file, seen through [open(path, 'r')] and [json.load]. *)
Inductive content : Type :=
| Loads (v : json)
| LoadFails (e : exn).

(** A filesystem tree. *)
#[warnings="-register-all"]
Inductive node : Type :=
| File (c : content)
| Dir (entries : list (string * node)).

(** A [pathlib.Path]: the segments below the root. *)
Definition Path := list string.

(** [p / name] *)
Definition child (p : Path) (name : string) : Path := (p ++ [name])%list.
Notation "p // name" := (child p name) (at level 40, left associativity).

(** [str(path)] *)
Definition path_str (p : Path) : string := "/" ++ join "/" p.

(** The node at [p] below [n], when there is one. *)
Fixpoint lookup (n : node) (p : Path) : option node :=
  match p with
  | [] => Some n
  | s :: p' =>
      match n with
      | File _ => None
      | Dir es =>
          match assoc s es with
          | Some c => lookup c p'
          | None => None
          end
      end
  end.

(** [path.exists()] *)
Definition path_exists (fs : node) (p : Path) : bool :=
  match lookup fs p with
  | Some _ => true
  | None => false
  end.

(** [path.is_dir()] *)
Definition is_dir (fs : node) (p : Path) : bool :=
  match lookup fs p with
  | Some (Dir _) => true
  | _ => false
  end.

(** A chain of new directories [p] ending in [leaf]. *)
Fixpoint fresh (p : Path) (leaf : node) : node :=
  match p with
  | [] => leaf
  | s :: p' => Dir [(s, fresh p' leaf)]
  end.

(** [path.mkdir(parents=True, exist_ok=True)] *)
Fixpoint mkdir_p (n : node) (p : Path) : result node :=
  match p with
  | [] =>
      match n with
      | Dir _ => Ok n
      | File _ => Raise (OSError "FileExistsError")
      end
  | s :: p' =>
      match n with
      | File _ => Raise (OSError "NotADirectoryError")
      | Dir es =>
          match assoc s es with
          | Some c =>
              match mkdir_p c p' with
              | Ok c' => Ok (Dir (set_entry s c' es))
              | Raise e => Raise e
              end
          | None => Ok (Dir (es ++ [(s, fresh p' (Dir []))])%list)
          end
      end
  end.

(** Writing a regular file out of an archive: missing parent directories
    are made, an existing file is replaced, a directory is in the way. *)
Fixpoint write_file (n : node) (p : Path) (c : content) : result node :=
  match p with
  | [] =>
      match n with
      | File _ => Ok (File c)
      | Dir _ => Raise (OSError "IsADirectoryError")
      end
  | s :: p' =>
      match n with
      | File _ => Raise (OSError "NotADirectoryError")
      | Dir es =>
          match assoc s es with
          | Some ch =>
              match write_file ch p' c with
              | Ok ch' => Ok (Dir (set_entry s ch' es))
              | Raise e => Raise e
              end
          | None => Ok (Dir (es ++ [(s, fresh p' (File c))])%list)
          end
      end
  end.

(** [path.rglob(pattern)] from a directory node standing at [here]: the
    entries of each directory that match, then its subdirectories in
    turn.  A path that is not a directory yields nothing. *)
Fixpoint rglob_from (matches : string -> bool) (here : Path) (n : node) : list Path :=
  match n with
  | File _ => []
  | Dir es =>
      (map (fun e => here // fst e) (filter (fun e => matches (fst e)) es)
       ++ (fix below (l : list (string * node)) : list Path :=
             match l with
             | [] => []
             | e :: l' => rglob_from matches (here // fst e) (snd e) ++ below l'
             end) es)%list
  end.

(** [p.rglob(pattern)] in the filesystem [fs]. *)
Definition rglob (fs : node) (p : Path) (matches : string -> bool) : list Path :=
  match lookup fs p with
  | Some n => rglob_from matches p n
  | None => []
  end.

(** The glob patterns of [get_resource_files], on an entry name:
    ["*.json"], and ["*" + t + "*.json"] for a type [t] taken literally
    (the reading of [pathlib] when [t] has no [*], [?], [[] or [/]). *)
Definition matches_json (name : string) : bool := endswith name ".json".

Definition matches_typed_json (t name : string) : bool :=
  endswith name ".json" &&
  py_in t (substring 0 (String.length name - 5) name).

(** [open(path, 'r')] then [json.load]. *)
Definition load (fs : node) (p : Path) : content :=
  match lookup fs p with
  | Some (File c) => c
  | Some (Dir _) => LoadFails (OSError "IsADirectoryError")
  | None => LoadFails (OSError "FileNotFoundError")
  end.

(** An archive member: a regular file or a directory, by its name inside
    the archive. *)
Inductive member : Type :=
| MFile (name : Path) (c : content)
| MDir (name : Path).

(** Extracting one member below [dest]; the name is taken as the
    segments it is made of (the reading of [tarfile] and [zipfile] for
    names without [.], [..] or empty segments). *)
Definition extract_member (fs : node) (dest : Path) (m : member) : result node :=
  match m with
  | MFile name c => write_file fs (dest ++ name)%list c
  | MDir name => mkdir_p fs (dest ++ name)%list
  end.

(* ================================================================== *)
(** * The world: filesystem, registry, requests made *)
(* ================================================================== *)

(** What a GET gives back.  The body is kept by what each reader makes
    of it: [response.json()], [tarfile.open(mode='r:gz')],
    [zipfile.ZipFile]. *)
Record response : Type := {
  status_ok : bool;
  body_json : option json;
  body_tar : option (list member);
  body_zip : option (list member)
}.

(** The filesystem, the answer of the network to a GET of each URL
    ([None] when the request itself fails), and the URLs asked for so
    far, oldest first. *)
Record world : Type := {
  fs : node;
  remote : string -> option response;
  requests : list string
}.

Definition with_fs (w : world) (n : node) : world :=
  {| fs := n; remote := remote w; requests := requests w |}.

(** Computations that read and write the world and may raise; what was
    written before an exception stays written. *)
Definition M (A : Type) : Type := world -> result A * world.

Definition ret {A : Type} (a : A) : M A := fun w => (Ok a, w).

Definition raise {A : Type} (e : exn) : M A := fun w => (Raise e, w).

Definition bind {A B : Type} (c : M A) (k : A -> M B) : M B :=
  fun w =>
    match c w with
    | (Ok a, w') => k a w'
    | (Raise e, w') => (Raise e, w')
    end.

Notation "x <- c ;; k" := (bind c (fun x => k))
  (at level 61, c at next level, right associativity).
Notation "c ;;; k" := (bind c (fun _ => k))
  (at level 61, right associativity).

(** [try: c except <handled>: handler] *)
Definition try_except {A : Type} (c : M A) (handled : exn -> bool) (handler : exn -> M A)
  : M A :=
  fun w =>
    match c w with
    | (Ok a, w') => (Ok a, w')
    | (Raise e, w') => if handled e then handler e w' else (Raise e, w')
    end.

(** A step that does not touch the world. *)
Definition lift {A : Type} (r : result A) : M A := fun w => (r, w).

(** [p.exists()] *)
Definition exists_ (p : Path) : M bool := fun w => (Ok (path_exists (fs w) p), w).

(** [p.mkdir(parents=True, exist_ok=True)] *)
Definition mkdir (p : Path) : M unit :=
  fun w =>
    match mkdir_p (fs w) p with
    | Ok n => (Ok tt, with_fs w n)
    | Raise e => (Raise e, w)
    end.

(** [archive.extractall(destination)], member after member. *)
Fixpoint extractall (members : list member) (dest : Path) : M unit :=
  match members with
  | [] => ret tt
  | m :: ms =>
      fun w =>
        match extract_member (fs w) dest m with
        | Ok n => extractall ms dest (with_fs w n)
        | Raise e => (Raise e, w)
        end
  end.

(** [requests.get(url)]: one network call. *)
Definition requests_get (url : string) : M response :=
  fun w =>
    let w' := {| fs := fs w; remote := remote w; requests := (requests w ++ [url])%list |} in
    match remote w url with
    | Some r => (Ok r, w')
    | None => (Raise RequestException, w')
    end.

(** [response.raise_for_status()] *)
Definition raise_for_status (r : response) : M unit :=
  if status_ok r then ret tt else raise RequestException.

(** [response.json()] *)
Definition response_json (r : response) : M json :=
  match body_json r with
  | Some v => ret v
  | None => raise RequestException
  end.

(** The [except requests.RequestException] clause. *)
Definition is_RequestException (e : exn) : bool :=
  match e with
  | RequestException => true
  | _ => false
  end.

(* ================================================================== *)
(** * class FHIRPackageManager *)
(* ================================================================== *)

Record FHIRPackageManager : Type := {
  cache_dir : Path;
  registry_url : string
}.

(** [__init__(self, cache_dir=None)], for a user whose home is [home]. *)
Definition init (home : Path) (cache_dir : option Path) : M FHIRPackageManager :=
  let dir :=
    match cache_dir with
    | Some d => d
    | None => home // ".fhir" // "packages"
    end in
  mkdir dir ;;;
  ret {| cache_dir := dir; registry_url := "https://packages.fhir.org" |}.

(** [self.cache_dir / package_id / version], each joined as one segment
    (the reading of [pathlib] for plain segments). *)
Definition package_dir_of (self : FHIRPackageManager) (package_id version : string) : Path :=
  cache_dir self // package_id // version.

(** The URL [_get_package_metadata] builds before it asks the registry. *)
Definition metadata_url (self : FHIRPackageManager) (package_id version : string) : string :=
  let url := registry_url self ++ "/" ++ package_id in
  if negb (version =? "latest") then url ++ ("/" ++ version) else url.

(** Returns the registry's answer, or [None] (here [JNull]) after a
    [requests.RequestException]. *)
Definition _get_package_metadata (self : FHIRPackageManager) (package_id version : string)
  : M json :=
  try_except
    (let url := metadata_url self package_id version in
     response <- requests_get url ;;
     raise_for_status response ;;;
     response_json response)
    is_RequestException
    (fun _ => ret JNull).

(** The URL is whatever the metadata holds under [dist.tarball];
    [requests.get] asks for its text, [endswith] needs a [str]. *)
Definition _download_and_extract (url : json) (destination : Path) : M unit :=
  response <- requests_get (py_str url) ;;
  raise_for_status response ;;;
  match url with
  | JStr u =>
      if endswith u ".tgz" || endswith u ".tar.gz" then
        match body_tar response with
        | Some tar => extractall tar destination
        | None => raise ReadError
        end
      else if endswith u ".zip" then
        match body_zip response with
        | Some zip_file => extractall zip_file destination
        | None => raise BadZipFile
        end
      else raise (ValueError ("Unsupported archive format: " ++ u))
  | _ => raise AttributeError
  end.

(** Lines 32-40 of [install_package]: from the registry's metadata to
    the download URL. *)
Definition find_download_url (self : FHIRPackageManager) (package_id version : string)
  : M json :=
  metadata <- _get_package_metadata self package_id version ;;
  if negb (truthy metadata) then
    raise (ValueError ("Package " ++ package_id ++ "@" ++ version ++ " not found"))
  else
    dist <- lift (value_get metadata "dist" (JObj [])) ;;
    download_url <- lift (value_get dist "tarball" JNull) ;;
    if negb (truthy download_url) then
      raise (ValueError ("No download URL found for " ++ package_id ++ "@" ++ version))
    else ret download_url.

(** [install_package(self, package_id, version)] *)
Definition install_package (self : FHIRPackageManager) (package_id version : string)
  : M Path :=
  let package_dir := package_dir_of self package_id version in
  cached <- exists_ package_dir ;;
  if cached then ret package_dir
  else
    download_url <- find_download_url self package_id version ;;
    mkdir package_dir ;;;
    _download_and_extract download_url package_dir ;;;
    ret package_dir.

(** [pattern = "*.json"], replaced by [f"*{resource_type}*.json"] when
    [resource_type] is given and not empty. *)
Definition pattern_for (resource_type : option string) : string -> bool :=
  match resource_type with
  | Some t => if truthy_arg resource_type then matches_typed_json t else matches_json
  | None => matches_json
  end.

(** [get_resource_files(self, package_id, version, resource_type)], on
    the filesystem [fs]. *)
Definition get_resource_files (self : FHIRPackageManager) (fs : node)
    (package_id version : string) (resource_type : option string) : list Path :=
  let package_dir := package_dir_of self package_id version in
  if negb (path_exists fs package_dir) then []
  else
    let search_dirs := [package_dir // "package"; package_dir; package_dir // "input"] in
    fold_left
      (fun resource_files search_dir =>
         if path_exists fs search_dir then
           let pattern := pattern_for resource_type in
           (resource_files ++ rglob fs search_dir pattern)%list
         else resource_files)
      search_dirs [].

(** The index: a [dict] from bucket name to a list of records, in
    insertion order. *)
Definition index_t := list (string * list dict).

Definition new_index : index_t :=
  [ ("StructureDefinition", []);
    ("ValueSet", []);
    ("CodeSystem", []);
    ("SearchParameter", []);
    ("OperationDefinition", []);
    ("CapabilityStatement", []);
    ("examples", []) ].

(** [index[k].append(r)], for a key that is there. *)
Fixpoint append_to (index : index_t) (k : string) (r : dict) : index_t :=
  match index with
  | [] => []
  | (k', rs) :: index' =>
      if k' =? k then (k', (rs ++ [r])%list) :: index'
      else (k', rs) :: append_to index' k r
  end.

(** [k in index], where [k] is any value: [None] when [k] cannot be
    hashed, and only a [str] can equal a key. *)
Definition key_in (k : json) (index : index_t) : option bool :=
  match k with
  | JStr s => Some (match assoc s index with Some _ => true | None => false end)
  | JArr _ | JObj _ => None
  | _ => Some false
  end.

(** The [except (json.JSONDecodeError, IOError)] clause. *)
Definition skipped (e : exn) : bool :=
  match e with
  | JSONDecodeError | OSError _ => true
  | _ => false
  end.

(** The record of a resource whose type is a key of the index. *)
Definition typed_record (resource : dict) (file_path : Path) : dict :=
  [ ("id", get resource "id");
    ("url", get resource "url");
    ("name", get resource "name");
    ("title", get resource "title");
    ("version", get resource "version");
    ("file_path", JStr (path_str file_path)) ].

(** The record of any other resource. *)
Definition example_record (resource_type : json) (resource : dict) (file_path : Path) : dict :=
  [ ("resourceType", resource_type);
    ("id", get resource "id");
    ("file_path", JStr (path_str file_path)) ].

(** One turn of the loop of [build_resource_index] on [file_path]. *)
Definition index_file (fs : node) (index : index_t) (file_path : Path) : result index_t :=
  match load fs file_path with
  | LoadFails e => if skipped e then Ok index else Raise e
  | Loads resource =>
      match resource with
      | JObj d =>
          let resource_type := get_default d "resourceType" (JStr "unknown") in
          match key_in resource_type index with
          | None => Raise TypeError
          | Some true => Ok (append_to index (py_str resource_type) (typed_record d file_path))
          | Some false => Ok (append_to index "examples" (example_record resource_type d file_path))
          end
      | _ => Raise AttributeError
      end
  end.

(** The loop: an exception the [except] clause does not name ends it. *)
Fixpoint index_files (fs : node) (index : index_t) (resource_files : list Path)
  : result index_t :=
  match resource_files with
  | [] => Ok index
  | file_path :: rest =>
      match index_file fs index file_path with
      | Ok index' => index_files fs index' rest
      | Raise e => Raise e
      end
  end.

(** [build_resource_index(self, package_id, version)] *)
Definition build_resource_index (self : FHIRPackageManager) (fs : node)
    (package_id version : string) : result index_t :=
  let index := new_index in
  let resource_files := get_resource_files self fs package_id version None in
  index_files fs index resource_files.

(** [{**resource, "resourceType": res_type}] *)
Definition tagged (res_type : string) (resource : dict) : dict :=
  set_entry "resourceType" (JStr res_type) resource.

(** The test of the [elif] of [search_resources] on one record. *)
Definition query_hits (query : string) (resource : dict) : bool :=
  py_in (lower query) (lower (py_str (get_default resource "name" (JStr EmptyString)))) ||
  py_in (lower query) (lower (py_str (get_default resource "url" (JStr EmptyString)))) ||
  py_in (lower query) (lower (py_str (get_default resource "title" (JStr EmptyString)))).

(** The inner loop of [search_resources] over one bucket. *)
Definition search_bucket (query : option string) (res_type : string) (resources : list dict)
  : list dict :=
  flat_map
    (fun resource =>
       if negb (truthy_arg query) then [tagged res_type resource]
       else
         match query with
         | Some q => if query_hits q resource then [tagged res_type resource] else []
         | None => []
         end)
    resources.

(** The loops of [search_resources] over a built index. *)
Definition search_index (index : index_t) (query resource_type : option string) : list dict :=
  flat_map
    (fun bucket =>
       let res_type := fst bucket in
       let resources := snd bucket in
       if truthy_arg resource_type &&
          negb (match resource_type with Some t => res_type =? t | None => false end)
       then []
       else search_bucket query res_type resources)
    index.

(** [search_resources(self, package_id, version, query, resource_type)] *)
Definition search_resources (self : FHIRPackageManager) (fs : node)
    (package_id version : string) (query resource_type : option string)
  : result (list dict) :=
  match build_resource_index self fs package_id version with
  | Ok index => Ok (search_index index query resource_type)
  | Raise e => Raise e
  end.

(* ================================================================== *)
(** * The rest of the class, and what [main] shows of a result *)
(* ================================================================== *)

(** [path.iterdir()]: the entries of a directory, as paths. *)
Definition iterdir (fs : node) (p : Path) : result (list Path) :=
  match lookup fs p with
  | Some (Dir es) => Ok (map (fun e => p // fst e) es)
  | Some (File _) => Raise (OSError "NotADirectoryError")
  | None => Raise (OSError "FileNotFoundError")
  end.

(** [path.name] *)
Definition name (p : Path) : string := last p EmptyString.

(** The entry [list_installed] appends for [version_dir] inside the
    directory of the package named [package_name]. *)
Definition installed_entry (package_name : string) (version_dir : Path) : dict :=
  [ ("id", JStr package_name);
    ("version", JStr (name version_dir));
    ("path", JStr (path_str version_dir)) ].

(** The inner loop of [list_installed]. *)
Fixpoint list_versions (fs : node) (package_name : string) (version_dirs : list Path)
    (packages : list dict) : list dict :=
  match version_dirs with
  | [] => packages
  | version_dir :: rest =>
      list_versions fs package_name rest
        (if is_dir fs version_dir
         then (packages ++ [installed_entry package_name version_dir])%list
         else packages)
  end.

(** The outer loop of [list_installed]. *)
Fixpoint list_packages (fs : node) (package_dirs : list Path) (packages : list dict)
  : result (list dict) :=
  match package_dirs with
  | [] => Ok packages
  | package_dir :: rest =>
      if is_dir fs package_dir then
        match iterdir fs package_dir with
        | Ok version_dirs =>
            list_packages fs rest (list_versions fs (name package_dir) version_dirs packages)
        | Raise e => Raise e
        end
      else list_packages fs rest packages
  end.

(** [list_installed(self)] *)
Definition list_installed (self : FHIRPackageManager) (fs : node) : result (list dict) :=
  let packages := [] in
  if negb (path_exists fs (cache_dir self)) then Ok packages
  else
    match iterdir fs (cache_dir self) with
    | Ok package_dirs => list_packages fs package_dirs packages
    | Raise e => Raise e
    end.

(** [load_package_manifest(self, package_id, version)]; [JNull] is the
    [None] it returns when there is no manifest. *)
Definition load_package_manifest (self : FHIRPackageManager) (fs : node)
    (package_id version : string) : result json :=
  let package_dir := package_dir_of self package_id version in
  let manifest_path := package_dir // "package.json" in
  if negb (path_exists fs manifest_path) then Ok JNull
  else
    match load fs manifest_path with
    | Loads v => Ok v
    | LoadFails e => Raise e
    end.

(** [a or b] *)
Definition py_or (a b : json) : json := if truthy a then a else b.

(** The name the [search] command of [main] prints for a result:
    [result.get("name") or result.get("id", "unknown")]. *)
Definition result_name (result : dict) : json :=
  py_or (get result "name") (get_default result "id" (JStr "unknown")).

(** The entry of [list_installed] for an identity. *)
Definition entry_of (self : FHIRPackageManager) (package_id version : string) : dict :=
  installed_entry package_id (package_dir_of self package_id version).

(** The packages below a package directory, as [list_installed] lists them. *)
Definition versions_of (fs : node) (package_dir : Path) : list dict :=
  match lookup fs package_dir with
  | Some (Dir es) =>
      map (fun e => installed_entry (name package_dir) (package_dir // fst e))
        (filter (fun e => is_dir fs (package_dir // fst e)) es)
  | _ => []
  end.

(** The suffixes [_download_and_extract] knows. *)
Definition supported_suffix (u : string) : bool :=
  endswith u ".tgz" || endswith u ".tar.gz" || endswith u ".zip".

(** The members [_download_and_extract] reads out of a response for the
    URL [u]: as a tar for [.tgz] and [.tar.gz], as a zip for [.zip]. *)
Definition served_archive (u : string) (r : response) : option (list member) :=
  if endswith u ".tgz" || endswith u ".tar.gz" then body_tar r
  else if endswith u ".zip" then body_zip r
  else None.

(** What [_get_package_metadata] makes of the registry's answer: the
    JSON body of a successful response, [None] otherwise. *)
Definition registry_answer (self : FHIRPackageManager) (package_id version : string)
    (w : world) : json :=
  match remote w (metadata_url self package_id version) with
  | Some resp =>
      if status_ok resp then
        match body_json resp with
        | Some metadata => metadata
        | None => JNull
        end
      else JNull
  | None => JNull
  end.

(** The value is a [dict]. *)
Definition is_object (v : json) : bool :=
  match v with
  | JObj _ => true
  | _ => false
  end.


(** The world after the requests [urls] were made, in that order. *)
Definition after_requests (w : world) (urls : list string) : world :=
  {| fs := fs w; remote := remote w; requests := (requests w ++ urls)%list |}.

(** A text [pathlib] joins to a path as one segment: not empty, not
    [.] or [..], without [/] and without a NUL character. *)
Definition plain_segment (s : string) : bool :=
  negb (s =? EmptyString) && negb (s =? ".") && negb (s =? "..") &&
  negb (has_char "/"%char s) && negb (has_char (ascii_of_nat 0) s).

(** A name inside an archive that stays below the destination and says
    where it goes: one plain segment at least, plain segments only. *)
Definition plain_name (file_name : Path) : bool :=
  match file_name with
  | [] => false
  | _ => forallb plain_segment file_name
  end.

(** A member with a plain name. *)
Definition plain_member (m : member) : bool :=
  match m with
  | MFile file_name _ => plain_name file_name
  | MDir file_name => plain_name file_name
  end.

(** A text that stands for itself in a glob pattern: none of [*], [?],
    [[], and no [/] to split the pattern. *)
Definition glob_literal (t : string) : bool :=
  negb (has_char "*"%char t) && negb (has_char "?"%char t) &&
  negb (has_char "["%char t) && negb (has_char "/"%char t).

(** An optional resource type that is read literally when given. *)
Definition literal_filter (resource_type : option string) : bool :=
  match resource_type with
  | Some t => glob_literal t
  | None => true
  end.

(** The records of an index, bucket after bucket, each with the name of
    its bucket. *)
Definition index_pairs (index : index_t) : list (string * dict) :=
  flat_map (fun b => map (pair (fst b)) (snd b)) index.

(** The record [snd kr] of bucket [fst kr] passes the filters of a
    search: the bucket is the type asked for, when one is asked for, and
    the query hits the record, when there is a query. *)
Definition lets_through (query resource_type : option string) (kr : string * dict) : bool :=
  match resource_type with
  | Some t => if t =? EmptyString then true else fst kr =? t
  | None => true
  end &&
  match query with
  | Some q => if q =? EmptyString then true else query_hits q (snd kr)
  | None => true
  end.

(** A record carries the field [f] as another record does. *)
Definition same_field (f : string) (r r0 : dict) : Prop := assoc f r = assoc f r0.

(** Member [m] is a regular file of the given name. *)
Definition writes_file (file_name : Path) (m : member) : Prop :=
  exists c, m = MFile file_name c.

(* ================================================================== *)
(** * What the specification speaks of *)
(* ================================================================== *)

(** The bucket and the record a candidate file is filed under by one
    turn of the indexing loop, when it is filed at all. *)
Definition filed_under (fs : node) (file_path : Path) : option (string * dict) :=
  match load fs file_path with
  | Loads (JObj d) =>
      let resource_type := get_default d "resourceType" (JStr "unknown") in
      match key_in resource_type new_index with
      | Some true => Some (py_str resource_type, typed_record d file_path)
      | Some false => Some ("examples", example_record resource_type d file_path)
      | None => None
      end
  | _ => None
  end.

(** The records the files of a list contribute to bucket [k], in order. *)
Definition records_for (fs : node) (k : string) (files : list Path) : list dict :=
  flat_map
    (fun f =>
       match filed_under fs f with
       | Some (k', r) => if k' =? k then [r] else []
       | None => []
       end)
    files.

(** A candidate file parsed successfully: [json.load] returned. *)
Definition parsed (fs : node) (file_path : Path) : bool :=
  match load fs file_path with
  | Loads _ => true
  | LoadFails _ => false
  end.

(** The records of a bucket; nothing for a name that is no key. *)
Definition bucket (index : index_t) (k : string) : list dict :=
  match assoc k index with
  | Some rs => rs
  | None => []
  end.

(** The number of records over all buckets. *)
Definition total_records (index : index_t) : nat :=
  list_sum (map (fun b => length (snd b)) index).

(** The index laid flat: bucket after bucket, each record tagged with
    the name of its bucket. *)
Definition flattened (index : index_t) : list dict :=
  concat (map (fun b => map (tagged (fst b)) (snd b)) index).

(** The text of a field as the specification reads it: empty when the
    field is absent or has no value. *)
Definition spec_field_text (resource : dict) (k : string) : string :=
  match assoc k resource with
  | None | Some JNull => EmptyString
  | Some v => py_str v
  end.

(** The specification's test for keeping a record under a query. *)
Definition spec_keeps (query : string) (resource : dict) : bool :=
  py_in (lower query) (lower (spec_field_text resource "name")) ||
  py_in (lower query) (lower (spec_field_text resource "url")) ||
  py_in (lower query) (lower (spec_field_text resource "title")).

(** The keys of an index, in order. *)
Definition keys (index : index_t) : list string := map fst index.

(** The bucket names [build_resource_index] starts from. *)
Definition seven_keys : list string :=
  [ "StructureDefinition"; "ValueSet"; "CodeSystem"; "SearchParameter";
    "OperationDefinition"; "CapabilityStatement"; "examples" ].

(** The type a file declares, when it holds a JSON object. *)
Definition declared_type (fs : node) (file_path : Path) : option json :=
  match load fs file_path with
  | Loads (JObj d) => Some (get_default d "resourceType" (JStr "unknown"))
  | _ => None
  end.

(** Every directory of [n] is a directory of [n']. *)
Definition keeps_dirs (n n' : node) : Prop :=
  forall q, is_dir n q = true -> is_dir n' q = true.

(** A candidate the loop can take: one it skips, or a JSON object whose
    declared type can be hashed. *)
Definition indexable (fs : node) (file_path : Path) : bool :=
  match load fs file_path with
  | LoadFails e => skipped e
  | Loads (JObj d) =>
      match key_in (get_default d "resourceType" (JStr "unknown")) new_index with
      | Some _ => true
      | None => false
      end
  | Loads _ => false
  end.

(** Paths can be told apart. *)
Definition path_eq_dec : forall p q : Path, {p = q} + {p <> q} :=
  list_eq_dec string_dec.

(* ================================================================== *)
(** * Packages to run the program on *)
(* ================================================================== *)

(** The manager [FHIRPackageManager()] makes for a user whose home is
    [/home/user]. *)
Definition manager : FHIRPackageManager :=
  {| cache_dir := ["home"; "user"; ".fhir"; "packages"];
     registry_url := "https://packages.fhir.org" |}.

(** A filesystem whose cache holds one package [core@1.0.0] with the
    given entries. *)
Definition cache_with (entries : list (string * node)) : node :=
  Dir [("home", Dir [("user", Dir [(".fhir", Dir [("packages",
    Dir [("core", Dir [("1.0.0", Dir entries)])])])])])].

(** A filesystem whose cache is empty. *)
Definition empty_cache : node :=
  Dir [("home", Dir [("user", Dir [(".fhir", Dir [("packages", Dir [])])])])].

Definition core_dir : Path := package_dir_of manager "core" "1.0.0".

Definition a_json : node :=
  File (Loads (JObj [("resourceType", JStr "StructureDefinition"); ("name", JStr "Foo")])).

Definition b_json : node :=
  File (Loads (JObj [("resourceType", JStr "ValueSet"); ("url", JStr "http://x/vs1")])).

Definition c_json : node :=
  File (Loads (JObj [("resourceType", JStr "Patient")])).

(** Scenario A of the specification: three files at the root of the
    package. *)
Definition scenario_a : node :=
  cache_with [("a.json", a_json); ("b.json", b_json); ("c.json", c_json)].

(** The layout of a package as the registry ships it: the files sit
    under [package/]. *)
Definition shipped : node :=
  cache_with [("package", Dir [("a.json", a_json)])].

(** A syntactically invalid file next to a valid one. *)
Definition with_invalid_json : node :=
  cache_with [("a.json", a_json); ("bad.json", File (LoadFails JSONDecodeError))].

(** A file that holds the JSON array [[]] next to a valid one. *)
Definition with_json_array : node :=
  cache_with [("a.json", a_json); ("list.json", File (Loads (JArr [])))].

(** A file that is not valid text in the reader's encoding next to a
    valid one. *)
Definition with_undecodable : node :=
  cache_with [("a.json", a_json); ("latin.json", File (LoadFails UnicodeDecodeError))].

(** A file that declares the type ["examples"]. *)
Definition with_examples_type : node :=
  cache_with [("e.json",
    File (Loads (JObj [("resourceType", JStr "examples"); ("name", JStr "Foo")])))].

(** A registry that knows [core@1.0.0] and points to [tarball]; the
    artifact, when asked for, is served with the given readings. *)
Definition registry (tarball : string) (tar zip_file : option (list member))
  (url : string) : option response :=
  if url =? "https://packages.fhir.org/core/1.0.0" then
    Some {| status_ok := true;
            body_json := Some (JObj [("dist", JObj [("tarball", JStr tarball)])]);
            body_tar := None; body_zip := None |}
  else if url =? tarball then
    Some {| status_ok := true; body_json := None; body_tar := tar; body_zip := zip_file |}
  else None.

(** Scenario C: the artifact URL ends in [.rar]; nothing is cached yet. *)
Definition scenario_c : world :=
  {| fs := empty_cache;
     remote := registry "https://packages.fhir.org/core/-/core-1.0.0.rar" None None;
     requests := [] |}.

(** A registry that serves [core@1.0.0] as a gzip-compressed tar with
    one file; nothing is cached yet. *)
Definition serving_tgz : world :=
  {| fs := empty_cache;
     remote := registry "https://packages.fhir.org/core/-/core-1.0.0.tgz"
                 (Some [MFile ["package"; "a.json"]
                          (Loads (JObj [("resourceType", JStr "StructureDefinition")]))])
                 None;
     requests := [] |}.

(** The manifest and the value set of a small package. *)
Definition core_manifest : json :=
  JObj [("name", JStr "core"); ("version", JStr "1.0.0")].

Definition vs1 : dict :=
  [("resourceType", JStr "ValueSet"); ("id", JStr "vs1"); ("url", JStr "http://x/vs1")].

(** A registry that serves [core@1.0.0] as a zip with a manifest at its
    root and one value set; nothing is cached yet. *)
Definition serving_zip : world :=
  {| fs := empty_cache;
     remote := registry "https://packages.fhir.org/core/-/core-1.0.0.zip"
                 None
                 (Some [MFile ["package.json"] (Loads core_manifest);
                        MFile ["ValueSet-vs1.json"] (Loads (JObj vs1))]);
     requests := [] |}.

(** A package with two value sets, one named after its type, one not,
    and a structure definition named after another type. *)
Definition typed_names : node :=
  cache_with
    [("ValueSet-vs1.json", File (Loads (JObj vs1)));
     ("vs2.json", File (Loads (JObj [("resourceType", JStr "ValueSet"); ("id", JStr "vs2")])));
     ("notes.txt", File (LoadFails JSONDecodeError));
     ("a.json", a_json)].

(** A registry that does not answer; [core@1.0.0] is cached. *)
Definition offline_cached : world :=
  {| fs := shipped; remote := fun _ => None; requests := [] |}.

(** A registry that does not answer; nothing is cached. *)
Definition offline_empty : world :=
  {| fs := empty_cache; remote := fun _ => None; requests := [] |}.

(* ================================================================== *)
(** * Properties *)
(* ================================================================== *)

(** Case analysis on the equality of two keys. *)
Ltac eqb_cases k1 k2 :=
  let E := fresh "E" in
  destruct (String.eqb_spec k1 k2) as [E | E]; [try subst | idtac].

(* ------------------------------------------------------------------ *)
(** ** Dictionaries and indexes *)

Section Entries.
Context {A : Type}.
Implicit Types (l : list (string * A)) (k : string) (v : A).

Lemma assoc_set_entry_eq k v l : assoc k (set_entry k v l) = Some v.
Proof.
  induction l as [| [k' v'] l IH]; simpl.
  - now rewrite String.eqb_refl.
  - eqb_cases k' k; simpl.
    + now rewrite String.eqb_refl.
    + apply String.eqb_neq in E. now rewrite E.
Qed.

Lemma assoc_set_entry_neq k k0 v l :
  k0 <> k -> assoc k0 (set_entry k v l) = assoc k0 l.
Proof.
  intros Hne. induction l as [| [k' v'] l IH]; simpl.
  - eqb_cases k k0; [congruence | reflexivity].
  - eqb_cases k' k; simpl.
    + eqb_cases k k0; [congruence | reflexivity].
    + now rewrite IH.
Qed.

Lemma assoc_app_some k l l' v :
  assoc k l = Some v -> assoc k (l ++ l')%list = Some v.
Proof.
  induction l as [| [k' v'] l IH]; simpl; [discriminate |].
  now destruct (k' =? k).
Qed.

Lemma assoc_app_none k l l' :
  assoc k l = None -> assoc k (l ++ l')%list = assoc k l'.
Proof.
  induction l as [| [k' v'] l IH]; simpl; [reflexivity |].
  now destruct (k' =? k).
Qed.

Lemma assoc_in_keys k l : In k (map fst l) <-> exists v, assoc k l = Some v.
Proof.
  induction l as [| [k' v'] l IH]; simpl.
  - split; [tauto | intros [v Hv]; discriminate].
  - eqb_cases k' k.
    + split; eauto.
    + rewrite IH. split; [intros [H | H]; [congruence | exact H] | auto].
Qed.

Lemma assoc_same_keys {B : Type} k l (m : list (string * B)) :
  map fst l = map fst m ->
  match assoc k l with Some _ => true | None => false end =
  match assoc k m with Some _ => true | None => false end.
Proof.
  revert m. induction l as [| [k' v'] l IH]; intros [| [k2 v2] m] Hk;
    simpl in *; try discriminate; [reflexivity |].
  injection Hk as -> Hk. destruct (k2 =? k); [reflexivity | now apply IH].
Qed.
End Entries.

Lemma keys_append_to index k r : keys (append_to index k r) = keys index.
Proof.
  unfold keys. induction index as [| [k' rs] index IH]; simpl; [reflexivity |].
  destruct (k' =? k); simpl; [reflexivity | now rewrite IH].
Qed.

Lemma assoc_append_to index k r k0 :
  assoc k0 (append_to index k r) =
  match assoc k0 index with
  | Some rs => Some (if k0 =? k then (rs ++ [r])%list else rs)
  | None => None
  end.
Proof.
  induction index as [| [k' rs] index IH]; simpl; [reflexivity |].
  eqb_cases k' k; simpl.
  - eqb_cases k k0; [now rewrite String.eqb_refl |].
    assert (Hne : (k0 =? k) = false) by (apply String.eqb_neq; congruence).
    rewrite Hne. now destruct (assoc k0 index).
  - eqb_cases k' k0.
    + apply String.eqb_neq in E. now rewrite E.
    + exact IH.
Qed.

Lemma key_in_same_keys (t : json) (index index' : index_t) :
  keys index = keys index' -> key_in t index = key_in t index'.
Proof.
  intros Hk. destruct t; simpl; try reflexivity.
  f_equal. now apply assoc_same_keys.
Qed.

(** One turn of the loop files the candidate under the bucket and with
    the record [filed_under] names, or leaves the index as it is. *)
Lemma index_file_filed fs index file_path index' :
  keys index = seven_keys ->
  index_file fs index file_path = Ok index' ->
  index' = match filed_under fs file_path with
           | Some (k, r) => append_to index k r
           | None => index
           end.
Proof.
  intros Hk. unfold index_file, filed_under.
  destruct (load fs file_path) as [[| b | t | s | l | d] | e]; try discriminate.
  - rewrite (key_in_same_keys _ index new_index) by exact Hk.
    destruct (key_in _ new_index) as [[|] |]; intros H; now inversion H.
  - destruct (skipped e); intros H; now inversion H.
Qed.

(** The loop keeps the keys and appends to each bucket the records of
    the candidates filed under it, in the order of the candidates. *)
Lemma index_files_filed fs files : forall index index',
  keys index = seven_keys ->
  index_files fs index files = Ok index' ->
  keys index' = seven_keys /\
  forall k, assoc k index' =
            match assoc k index with
            | Some rs => Some (rs ++ records_for fs k files)%list
            | None => None
            end.
Proof.
  induction files as [| f files IH]; intros index index' Hk; simpl.
  - intros H. injection H as <-. split; [exact Hk |].
    intros k. destruct (assoc k index); [now rewrite app_nil_r | reflexivity].
  - destruct (index_file fs index f) as [index1 |] eqn:Hf; [| discriminate].
    intros Hrest. apply index_file_filed in Hf; [| exact Hk].
    assert (Hk1 : keys index1 = seven_keys).
    { subst index1. destruct (filed_under fs f) as [[k r] |]; [| exact Hk].
      now rewrite keys_append_to. }
    destruct (IH _ _ Hk1 Hrest) as [Hk' Hb]. split; [exact Hk' |].
    intros k. rewrite Hb. subst index1.
    destruct (filed_under fs f) as [[k1 r] |].
    + rewrite assoc_append_to. destruct (assoc k index) as [rs |]; [| reflexivity].
      rewrite (String.eqb_sym k k1).
      destruct (k1 =? k); [now rewrite <- app_assoc | reflexivity].
    + reflexivity.
Qed.

Lemma records_for_none fs k files :
  (forall f, In f files -> forall r, filed_under fs f <> Some (k, r)) ->
  records_for fs k files = [].
Proof.
  unfold records_for. induction files as [| f files IH]; intros Hno; simpl; [reflexivity |].
  rewrite IH by (intros g Hg; apply Hno; now right).
  destruct (filed_under fs f) as [[k' r] |] eqn:Hf; [| reflexivity].
  eqb_cases k' k; [| reflexivity].
  exfalso. apply (Hno f (or_introl eq_refl) r). exact Hf.
Qed.

(** ** The keys of the index *)

(** C8: whenever [build_resource_index] returns an index, its keys are
    exactly the seven bucket names, in the order they were created, and
    every bucket no candidate file was filed under is the empty list. *)
Theorem index_has_seven_keys self fs package_id version index :
  build_resource_index self fs package_id version = Ok index ->
  keys index = seven_keys /\
  forall k, In k seven_keys ->
    (forall f, In f (get_resource_files self fs package_id version None) ->
               forall r, filed_under fs f <> Some (k, r)) ->
    assoc k index = Some [].
Proof.
  unfold build_resource_index. intros Hb.
  apply index_files_filed in Hb; [| reflexivity].
  destruct Hb as [Hk Hb]. split; [exact Hk |].
  intros k Hin Hno. rewrite Hb, (records_for_none _ _ _ Hno).
  simpl in Hin.
  repeat (destruct Hin as [<- | Hin]; [reflexivity |]). contradiction.
Qed.

Lemma index_has_seven_keys_witness :
  exists index,
    build_resource_index manager scenario_a "core" "1.0.0" = Ok index /\
    keys index = seven_keys /\ assoc "CodeSystem" index = Some [].
Proof.
  eexists. split; [reflexivity |].
  destruct (index_has_seven_keys manager scenario_a "core" "1.0.0" _ eq_refl) as [Hk Hb].
  split; [exact Hk |].
  apply Hb; [simpl; tauto |].
  intros f Hf r. simpl in Hf.
  repeat (destruct Hf as [<- | Hf]; [vm_compute; discriminate |]). contradiction.
Defined.

(** ** A package that is not installed *)

(** C9: when the directory of an identity does not exist, the file
    enumeration is empty, [build_resource_index] returns the index with
    seven empty buckets, and [search_resources] returns the empty list,
    whatever the query and the type filter; none of them raises. *)
Theorem not_installed_is_empty self fs package_id version :
  path_exists fs (package_dir_of self package_id version) = false ->
  (forall resource_type,
      get_resource_files self fs package_id version resource_type = []) /\
  build_resource_index self fs package_id version = Ok new_index /\
  (forall k, In k seven_keys -> assoc k new_index = Some []) /\
  (forall query resource_type,
      search_resources self fs package_id version query resource_type = Ok []).
Proof.
  intros Hno.
  assert (Hfiles : forall t, get_resource_files self fs package_id version t = []).
  { intros t. unfold get_resource_files. now rewrite Hno. }
  assert (Hbuild : build_resource_index self fs package_id version = Ok new_index).
  { unfold build_resource_index. now rewrite Hfiles. }
  repeat split.
  - exact Hfiles.
  - exact Hbuild.
  - intros k Hin. simpl in Hin.
    repeat (destruct Hin as [<- | Hin]; [reflexivity |]). contradiction.
  - intros query resource_type. unfold search_resources. rewrite Hbuild.
    f_equal. unfold search_index, new_index. simpl.
    repeat match goal with
           | |- context [if ?c then _ else _] => destruct c; simpl
           end; reflexivity.
Qed.

Lemma not_installed_is_empty_witness :
  path_exists scenario_a (package_dir_of manager "absent" "latest") = false /\
  get_resource_files manager scenario_a "absent" "latest" None = [] /\
  build_resource_index manager scenario_a "absent" "latest" = Ok new_index /\
  search_resources manager scenario_a "absent" "latest" (Some "foo") None = Ok [].
Proof.
  assert (Hno : path_exists scenario_a (package_dir_of manager "absent" "latest") = false)
    by reflexivity.
  destruct (not_installed_is_empty manager scenario_a "absent" "latest" Hno)
    as (Hfiles & Hbuild & _ & Hsearch).
  split; [exact Hno |]. split; [exact (Hfiles None) |].
  split; [exact Hbuild | exact (Hsearch (Some "foo") None)].
Defined.

(** ** Search without filters *)

Lemma search_bucket_no_query res_type resources :
  search_bucket None res_type resources = map (tagged res_type) resources.
Proof.
  unfold search_bucket. induction resources as [| r rs IH]; simpl; [reflexivity |].
  now f_equal.
Qed.

(** What tagging does to a record: [resourceType] becomes the name of
    the bucket, every other field stays as it is. *)
Lemma get_tagged res_type resource :
  get (tagged res_type resource) "resourceType" = JStr res_type.
Proof. unfold get, get_default, tagged. now rewrite assoc_set_entry_eq. Qed.

Lemma tagged_same_field res_type resource f :
  f <> "resourceType" -> same_field f (tagged res_type resource) resource.
Proof. intros Hf. unfold same_field, tagged. now apply assoc_set_entry_neq. Qed.

Lemma map_flattened {B : Type} (h : dict -> B) (index : index_t) :
  map h (flattened index)
  = flat_map (fun b => map (fun r0 => h (tagged (fst b) r0)) (snd b)) index.
Proof.
  unfold flattened. induction index as [| [k rs] index IH]; simpl; [reflexivity |].
  now rewrite map_app, map_map, IH.
Qed.

(** C5: with neither a query nor a type filter, the search returns the
    index laid flat, bucket after bucket and record after record, each
    record tagged with the name of its bucket; so a record is returned
    exactly when it is a record of some bucket, tagged with its name.
    Read field by field: the [resourceType] fields of the result are the
    names of the buckets, each as many times as its bucket has records,
    in the order of the index; and every other field of the result
    reads, position by position, as in the records of the index. *)
Theorem search_no_filter_flattens (index : index_t) :
  search_index index None None = flattened index /\
  (forall r, In r (search_index index None None) <->
             exists k rs r0, In (k, rs) index /\ In r0 rs /\ r = tagged k r0) /\
  map (fun r => get r "resourceType") (search_index index None None)
  = flat_map (fun b => map (fun _ => JStr (fst b)) (snd b)) index /\
  (forall f, f <> "resourceType" ->
     map (assoc f) (search_index index None None)
     = flat_map (fun b => map (assoc f) (snd b)) index).
Proof.
  assert (Heq : search_index index None None = flattened index).
  { unfold search_index, flattened. rewrite flat_map_concat_map.
    apply f_equal, map_ext. intros [k rs]. simpl. apply search_bucket_no_query. }
  split; [exact Heq |]. split; [| split].
  - intros r. rewrite Heq. unfold flattened. rewrite in_concat. split.
    + intros (l & Hl & Hr). apply in_map_iff in Hl. destruct Hl as ([k rs] & <- & Hb).
      apply in_map_iff in Hr. destruct Hr as (r0 & <- & Hr0).
      exists k, rs, r0. auto.
    + intros (k & rs & r0 & Hb & Hr0 & ->).
      exists (map (tagged k) rs). split.
      * apply in_map_iff. exists (k, rs). auto.
      * apply in_map. exact Hr0.
  - rewrite Heq, map_flattened. apply flat_map_ext. intros [k rs]. simpl.
    apply map_ext. intros r0. apply get_tagged.
  - intros f Hf. rewrite Heq, map_flattened. apply flat_map_ext. intros [k rs]. simpl.
    apply map_ext. intros r0. now apply tagged_same_field.
Qed.

Lemma search_no_filter_flattens_witness :
  map (fun r => get r "resourceType")
    (search_index [("ValueSet", [vs1]); ("examples", [[("resourceType", JStr "Patient")]])]
       None None)
  = [JStr "ValueSet"; JStr "examples"] /\
  map (assoc "url")
    (search_index [("ValueSet", [vs1]); ("examples", [[("resourceType", JStr "Patient")]])]
       None None)
  = [Some (JStr "http://x/vs1"); None].
Proof.
  destruct (search_no_filter_flattens
              [("ValueSet", [vs1]); ("examples", [[("resourceType", JStr "Patient")]])])
    as (_ & _ & Htags & Hfields).
  split; [exact Htags |]. apply (Hfields "url"). discriminate.
Defined.

(** [search_resources] without filters lays flat the index it builds. *)
Lemma search_resources_no_filter self fs package_id version :
  search_resources self fs package_id version None None =
  match build_resource_index self fs package_id version with
  | Ok index => Ok (flattened index)
  | Raise e => Raise e
  end.
Proof.
  unfold search_resources.
  destruct (build_resource_index self fs package_id version) as [index | e];
    [| reflexivity].
  f_equal. unfold search_index, flattened. rewrite flat_map_concat_map.
  apply f_equal, map_ext. intros [k rs]. simpl. apply search_bucket_no_query.
Qed.

(** ** The registry lookup *)

Lemma string_app_assoc (a b c : string) : (a ++ b) ++ c = a ++ (b ++ c).
Proof.
  induction a as [| x a IH]; simpl; [reflexivity | now rewrite IH].
Qed.

(** C7: the metadata lookup asks for [registry_url/package_id] when the
    version is ["latest"] and for [registry_url/package_id/version]
    otherwise, and that URL is the one request the lookup makes. *)
Theorem metadata_url_by_version self package_id version :
  (version = "latest" ->
   metadata_url self package_id version = registry_url self ++ "/" ++ package_id) /\
  (version <> "latest" ->
   metadata_url self package_id version
   = registry_url self ++ "/" ++ package_id ++ "/" ++ version) /\
  (forall w,
     requests (snd (_get_package_metadata self package_id version w))
     = (requests w ++ [metadata_url self package_id version])%list).
Proof.
  unfold metadata_url. repeat split.
  - intros ->. reflexivity.
  - intros Hne. apply String.eqb_neq in Hne. rewrite Hne. simpl.
    now rewrite !string_app_assoc.
  - intros w. unfold _get_package_metadata, try_except, bind, requests_get.
    destruct (remote w _) as [r |]; simpl; [| reflexivity].
    unfold raise_for_status. destruct (status_ok r); simpl; [| reflexivity].
    unfold response_json. now destruct (body_json r).
Qed.

Lemma metadata_url_by_version_witness :
  metadata_url manager "hl7.fhir.r4.core" "latest"
  = "https://packages.fhir.org/hl7.fhir.r4.core" /\
  metadata_url manager "hl7.fhir.r4.core" "4.0.1"
  = "https://packages.fhir.org/hl7.fhir.r4.core/4.0.1".
Proof.
  destruct (metadata_url_by_version manager "hl7.fhir.r4.core" "latest") as [Hl _].
  destruct (metadata_url_by_version manager "hl7.fhir.r4.core" "4.0.1") as (_ & Hv & _).
  split; [exact (Hl eq_refl) | apply Hv; discriminate].
Defined.

(* ------------------------------------------------------------------ *)
(** ** The filesystem under [mkdir] and extraction *)

Create HintDb dirs.

Lemma keeps_dirs_refl n : keeps_dirs n n.
Proof. intros q H. exact H. Qed.

Lemma keeps_dirs_trans n1 n2 n3 :
  keeps_dirs n1 n2 -> keeps_dirs n2 n3 -> keeps_dirs n1 n3.
Proof. intros H12 H23 q H. apply H23, H12, H. Qed.

Lemma is_dir_cons es s q :
  is_dir (Dir es) (s :: q) =
  match assoc s es with
  | Some c => is_dir c q
  | None => false
  end.
Proof. unfold is_dir. simpl. now destruct (assoc s es). Qed.

Lemma is_dir_exists n q : is_dir n q = true -> path_exists n q = true.
Proof. unfold is_dir, path_exists. now destruct (lookup n q). Qed.

Lemma is_dir_file c q : is_dir (File c) q = false.
Proof. now destruct q. Qed.

Lemma lookup_fresh p leaf : lookup (fresh p leaf) p = Some leaf.
Proof.
  induction p as [| s p IH]; simpl; [reflexivity |].
  now rewrite String.eqb_refl.
Qed.

(** Replacing an entry by one that keeps its directories keeps the
    directories of the whole. *)
Lemma keeps_dirs_set_entry es s c c' :
  assoc s es = Some c -> keeps_dirs c c' ->
  keeps_dirs (Dir es) (Dir (set_entry s c' es)).
Proof.
  intros Hs Hc [| t q]; [reflexivity |].
  rewrite !is_dir_cons. eqb_cases t s.
  - rewrite Hs, assoc_set_entry_eq. apply Hc.
  - now rewrite assoc_set_entry_neq.
Qed.

Lemma keeps_dirs_new_entry es s c :
  keeps_dirs (Dir es) (Dir (es ++ [(s, c)])%list).
Proof.
  intros [| t q]; [reflexivity |].
  rewrite !is_dir_cons. destruct (assoc t es) as [c0 |] eqn:Ht; [| discriminate].
  now rewrite (assoc_app_some _ _ _ _ Ht).
Qed.

#[local] Hint Resolve keeps_dirs_refl keeps_dirs_set_entry keeps_dirs_new_entry : dirs.

Lemma mkdir_p_keeps_dirs p : forall n n',
  mkdir_p n p = Ok n' -> keeps_dirs n n'.
Proof.
  induction p as [| s p IH]; intros [c | es] n'; simpl; try discriminate.
  - intros [= <-]. auto with dirs.
  - destruct (assoc s es) as [c |] eqn:Hs.
    + destruct (mkdir_p c p) as [c' |] eqn:Hc; [| discriminate].
      intros [= <-]. eauto with dirs.
    + intros [= <-]. auto with dirs.
Qed.

Lemma write_file_keeps_dirs p : forall n c n',
  write_file n p c = Ok n' -> keeps_dirs n n'.
Proof.
  induction p as [| s p IH]; intros [c0 | es] c n'; simpl; try discriminate.
  - intros [= <-] q. now rewrite is_dir_file.
  - destruct (assoc s es) as [ch |] eqn:Hs.
    + destruct (write_file ch p c) as [ch' |] eqn:Hc; [| discriminate].
      intros [= <-]. eauto with dirs.
    + intros [= <-]. auto with dirs.
Qed.

(** After [mkdir(parents=True, exist_ok=True)] the path is a directory. *)
Lemma mkdir_p_is_dir p : forall n n',
  mkdir_p n p = Ok n' -> is_dir n' p = true.
Proof.
  induction p as [| s p IH]; intros [c | es] n'; simpl; try discriminate.
  - now intros [= <-].
  - destruct (assoc s es) as [c |] eqn:Hs.
    + destruct (mkdir_p c p) as [c' |] eqn:Hc; [| discriminate].
      intros [= <-]. rewrite is_dir_cons, assoc_set_entry_eq. eauto.
    + intros [= <-]. rewrite is_dir_cons, (assoc_app_none _ _ _ Hs). simpl.
      rewrite String.eqb_refl. unfold is_dir. now rewrite lookup_fresh.
Qed.

Lemma extract_member_keeps_dirs n dest m n' :
  extract_member n dest m = Ok n' -> keeps_dirs n n'.
Proof.
  destruct m as [name c | name]; simpl.
  - apply write_file_keeps_dirs.
  - apply mkdir_p_keeps_dirs.
Qed.

(** Extraction, finished or interrupted, removes no directory. *)
Lemma extractall_keeps_dirs members dest : forall w r w',
  extractall members dest w = (r, w') -> keeps_dirs (fs w) (fs w').
Proof.
  induction members as [| m ms IH]; intros w r w'; simpl.
  - intros [= _ <-]. apply keeps_dirs_refl.
  - destruct (extract_member (fs w) dest m) as [n |] eqn:Hm.
    + intros Hrest. apply IH in Hrest. simpl in Hrest.
      eapply keeps_dirs_trans; [| exact Hrest].
      eapply extract_member_keeps_dirs; eauto.
    + intros [= _ <-]. apply keeps_dirs_refl.
Qed.

Lemma _download_and_extract_keeps_dirs url dest w r w' :
  _download_and_extract url dest w = (r, w') -> keeps_dirs (fs w) (fs w').
Proof.
  unfold _download_and_extract, bind, requests_get, raise_for_status, raise, ret.
  destruct (remote w (py_str url)) as [resp |]; [| intros [= _ <-]; apply keeps_dirs_refl].
  destruct (status_ok resp); [| intros [= _ <-]; apply keeps_dirs_refl].
  destruct url as [| b | t | u | l | d]; try (intros [= _ <-]; apply keeps_dirs_refl).
  destruct (endswith u ".tgz" || endswith u ".tar.gz").
  - destruct (body_tar resp) as [tar |]; [| intros [= _ <-]; apply keeps_dirs_refl].
    intros H. apply extractall_keeps_dirs in H. exact H.
  - destruct (endswith u ".zip"); [| intros [= _ <-]; apply keeps_dirs_refl].
    destruct (body_zip resp) as [z |]; [| intros [= _ <-]; apply keeps_dirs_refl].
    intros H. apply extractall_keeps_dirs in H. exact H.
Qed.

(** Looking up the download URL touches the network only. *)
Lemma find_download_url_fs self package_id version w :
  fs (snd (find_download_url self package_id version w)) = fs w.
Proof.
  unfold find_download_url, bind, _get_package_metadata, try_except, bind,
    requests_get, raise_for_status, response_json, raise, ret, lift.
  destruct (remote w _) as [resp |]; simpl; [| reflexivity].
  destruct (status_ok resp); simpl; [| reflexivity].
  destruct (body_json resp) as [metadata |]; simpl; [| reflexivity].
  destruct (negb (truthy metadata)); [reflexivity |].
  destruct (value_get metadata "dist" (JObj [])) as [dist |]; [| reflexivity].
  destruct (value_get dist "tarball" JNull) as [download_url |]; [| reflexivity].
  now destruct (negb (truthy download_url)).
Qed.

(* ------------------------------------------------------------------ *)
(** ** Installing *)

(** On a fresh home directory the constructor makes the cache root and
    returns the manager the examples use. *)
Lemma init_default :
  init ["home"; "user"] None
    {| fs := Dir [("home", Dir [("user", Dir [])])];
       remote := fun _ => None; requests := [] |}
  = (Ok manager, offline_empty).
Proof. reflexivity. Qed.

(** What [install_package] does when the package is not cached yet. *)
Lemma install_package_uncached self package_id version w :
  path_exists (fs w) (package_dir_of self package_id version) = false ->
  install_package self package_id version w =
  (download_url <- find_download_url self package_id version ;;
   mkdir (package_dir_of self package_id version) ;;;
   _download_and_extract download_url (package_dir_of self package_id version) ;;;
   ret (package_dir_of self package_id version)) w.
Proof.
  intros Hno. unfold install_package, exists_. unfold bind at 1. now rewrite Hno.
Qed.

Lemma install_package_cached self package_id version w :
  path_exists (fs w) (package_dir_of self package_id version) = true ->
  install_package self package_id version w
  = (Ok (package_dir_of self package_id version), w).
Proof.
  intros Hyes. unfold install_package, exists_. unfold bind at 1. now rewrite Hyes.
Qed.

(** An install that succeeds returns the directory of the identity and
    leaves it in place as a directory. *)
Lemma install_package_ok self package_id version w p w' :
  install_package self package_id version w = (Ok p, w') ->
  p = package_dir_of self package_id version /\
  path_exists (fs w') (package_dir_of self package_id version) = true.
Proof.
  set (package_dir := package_dir_of self package_id version).
  destruct (path_exists (fs w) package_dir) eqn:Hc.
  - rewrite install_package_cached by exact Hc. intros [= <- <-]. auto.
  - rewrite install_package_uncached by exact Hc. fold package_dir.
    unfold bind at 1.
    pose proof (find_download_url_fs self package_id version w) as Hfs.
    destruct (find_download_url self package_id version w) as [[url | e] w1];
      [| discriminate].
    simpl in Hfs. unfold bind at 1. unfold mkdir.
    destruct (mkdir_p (fs w1) package_dir) as [n |] eqn:Hmk; [| discriminate].
    unfold bind at 1.
    destruct (_download_and_extract url package_dir (with_fs w1 n)) as [[[] | e] w2] eqn:Hdl;
      [| discriminate].
    unfold ret. intros [= <- <-]. split; [reflexivity |].
    apply is_dir_exists.
    apply (_download_and_extract_keeps_dirs _ _ _ _ _ Hdl). simpl.
    eapply mkdir_p_is_dir; eauto.
Qed.

(** C3: for an identity whose directory exists, [install_package] makes
    no request, leaves the world (filesystem and request log) as it is,
    and returns the directory of the identity; and since every install
    that succeeds returns that directory and leaves it in place, an
    install repeated after a successful one is such a no-op with the
    same result. *)
Theorem install_is_idempotent self package_id version :
  (forall w,
     path_exists (fs w) (package_dir_of self package_id version) = true ->
     install_package self package_id version w
     = (Ok (package_dir_of self package_id version), w)) /\
  (forall w p w',
     install_package self package_id version w = (Ok p, w') ->
     p = package_dir_of self package_id version /\
     install_package self package_id version w' = (Ok p, w')).
Proof.
  split.
  - intros w. apply install_package_cached.
  - intros w p w' Hok. apply install_package_ok in Hok. destruct Hok as [-> Hex].
    split; [reflexivity |]. now apply install_package_cached.
Qed.

Lemma install_is_idempotent_witness :
  install_package manager "core" "1.0.0" offline_cached = (Ok core_dir, offline_cached) /\
  (let first := install_package manager "core" "1.0.0" serving_tgz in
   length (requests (snd first)) = 2 /\
   install_package manager "core" "1.0.0" (snd first) = (Ok core_dir, snd first)).
Proof.
  destruct (install_is_idempotent manager "core" "1.0.0") as [Hcached Hagain].
  split.
  - apply Hcached. reflexivity.
  - split; [reflexivity |].
    apply (Hagain serving_tgz core_dir). reflexivity.
Defined.




(* ------------------------------------------------------------------ *)
(** ** Queries *)

Lemma lower_empty s : lower s = EmptyString -> s = EmptyString.
Proof. destruct s; [reflexivity | discriminate]. Qed.

(** Nothing but the empty string occurs in the empty string. *)
Lemma py_in_empty sub : sub <> EmptyString -> py_in sub EmptyString = false.
Proof. destruct sub; [congruence | reflexivity]. Qed.

(** With no [name], [url] or [title] key, a record is never hit by a
    query that is not empty. *)
Lemma query_misses_plain_record query resource :
  query <> EmptyString ->
  assoc "name" resource = None ->
  assoc "url" resource = None ->
  assoc "title" resource = None ->
  query_hits query resource = false.
Proof.
  intros Hq Hn Hu Ht. unfold query_hits, get_default. rewrite Hn, Hu, Ht.
  cbn [py_str lower]. rewrite py_in_empty; [reflexivity |].
  intros H. apply Hq. now apply lower_empty.
Qed.

(** Where no field among [name], [url], [title] holds [None], the test
    of the code is the test of the specification. *)
Lemma query_hits_spec_keeps query resource :
  assoc "name" resource <> Some JNull ->
  assoc "url" resource <> Some JNull ->
  assoc "title" resource <> Some JNull ->
  query_hits query resource = spec_keeps query resource.
Proof.
  intros Hn Hu Ht. unfold query_hits, spec_keeps, spec_field_text, get_default.
  destruct (assoc "name" resource) as [[] |]; try congruence;
    destruct (assoc "url" resource) as [[] |]; try congruence;
    destruct (assoc "title" resource) as [[] |]; try congruence; reflexivity.
Qed.

(** C4 on the code: on Scenario A the query ["none"] returns both the
    record of [a.json] and the record of [b.json], though no [name],
    [url] or [title] of either holds that text: a field without a value
    is searched as the text ["None"], not as the empty text. *)
Theorem query_hits_missing_fields :
  exists ra rb,
    search_resources manager scenario_a "core" "1.0.0" (Some "none") None
    = Ok [tagged "StructureDefinition" ra; tagged "ValueSet" rb] /\
    get rb "name" = JNull /\ get rb "url" = JStr "http://x/vs1" /\ get rb "title" = JNull /\
    spec_keeps "none" ra = false /\ spec_keeps "none" rb = false /\
    query_hits "none" ra = true /\ query_hits "none" rb = true.
Proof.
  do 2 eexists. split; [reflexivity |]. repeat split.
Qed.

(* ------------------------------------------------------------------ *)
(** ** The examples bucket *)

Lemma records_for_in fs k files r :
  In r (records_for fs k files) ->
  exists f, In f files /\ filed_under fs f = Some (k, r).
Proof.
  unfold records_for. rewrite in_flat_map. intros (f & Hf & Hr).
  exists f. split; [exact Hf |].
  destruct (filed_under fs f) as [[k' r'] |]; [| contradiction].
  eqb_cases k' k; [| contradiction].
  destruct Hr as [<- | []]. reflexivity.
Qed.

(** What [build_resource_index] returns, bucket by bucket. *)
Lemma build_resource_index_buckets self fs package_id version index :
  build_resource_index self fs package_id version = Ok index ->
  keys index = seven_keys /\
  forall k, In k seven_keys ->
            assoc k index
            = Some (records_for fs k (get_resource_files self fs package_id version None)).
Proof.
  unfold build_resource_index. intros Hb.
  apply index_files_filed in Hb; [| reflexivity].
  destruct Hb as [Hk Hb]. split; [exact Hk |].
  intros k Hin. rewrite Hb. simpl in Hin.
  repeat (destruct Hin as [<- | Hin]; [reflexivity |]). contradiction.
Qed.

Lemma records_for_intro fs k files f r :
  In f files -> filed_under fs f = Some (k, r) -> In r (records_for fs k files).
Proof.
  intros Hf Hfiled. unfold records_for. apply in_flat_map. exists f.
  split; [exact Hf |]. rewrite Hfiled, String.eqb_refl. now left.
Qed.

(** The record of a file whose declared type is no key of the index. *)
Lemma example_record_plain resource_type resource file_path :
  map fst (example_record resource_type resource file_path)
  = ["resourceType"; "id"; "file_path"] /\
  forall query, query <> EmptyString ->
    query_hits query (example_record resource_type resource file_path) = false.
Proof.
  split; [reflexivity |]. intros query Hq. now apply query_misses_plain_record.
Qed.

(** What the inner loop of a search takes from a bucket under a query. *)
Lemma search_bucket_query_in query res_type resources r :
  query <> EmptyString ->
  In r (search_bucket (Some query) res_type resources) ->
  exists r0, In r0 resources /\ query_hits query r0 = true /\ r = tagged res_type r0.
Proof.
  intros Hq. apply String.eqb_neq in Hq. unfold search_bucket, truthy_arg.
  rewrite Hq. cbn [negb]. rewrite in_flat_map. intros (r0 & Hr0 & Hr).
  exists r0. destruct (query_hits query r0); [| contradiction].
  destruct Hr as [<- | []]. auto.
Qed.

(** C10, as the code has it.  In every index [build_resource_index]
    returns: a candidate file whose declared type is no key of the index
    has its record in the ["examples"] bucket, with exactly the fields
    [resourceType], [id] and [file_path], and no query that is not empty
    hits that record; every record of the ["examples"] bucket is such a
    record or comes from a file that declares the type ["examples"]
    itself, and a search with a query that is not empty takes from that
    bucket records of such files only.  So when no candidate file
    declares the type ["examples"], every record of the bucket has
    exactly the three fields and a search with a query that is not empty
    takes nothing from it. *)
Theorem examples_records_never_hit self fs package_id version index :
  build_resource_index self fs package_id version = Ok index ->
  (forall f t,
     In f (get_resource_files self fs package_id version None) ->
     declared_type fs f = Some t ->
     key_in t new_index = Some false ->
     exists r,
       filed_under fs f = Some ("examples", r) /\
       In r (bucket index "examples") /\
       map fst r = ["resourceType"; "id"; "file_path"] /\
       forall query, query <> EmptyString -> query_hits query r = false) /\
  (forall r, In r (bucket index "examples") ->
     exists f,
       In f (get_resource_files self fs package_id version None) /\
       filed_under fs f = Some ("examples", r) /\
       (declared_type fs f = Some (JStr "examples") \/
        (map fst r = ["resourceType"; "id"; "file_path"] /\
         forall query, query <> EmptyString -> query_hits query r = false))) /\
  (forall query r,
     query <> EmptyString ->
     In r (search_bucket (Some query) "examples" (bucket index "examples")) ->
     exists f r0,
       In f (get_resource_files self fs package_id version None) /\
       declared_type fs f = Some (JStr "examples") /\
       filed_under fs f = Some ("examples", r0) /\
       r = tagged "examples" r0) /\
  ((forall f, In f (get_resource_files self fs package_id version None) ->
              declared_type fs f <> Some (JStr "examples")) ->
   (forall r, In r (bucket index "examples") ->
              map fst r = ["resourceType"; "id"; "file_path"]) /\
   (forall query, query <> EmptyString ->
      search_bucket (Some query) "examples" (bucket index "examples") = [] /\
      search_index index (Some query) (Some "examples") = [])).
Proof.
  intros Hb.
  destruct (build_resource_index_buckets _ _ _ _ _ Hb) as [Hk Hbuckets].
  assert (Hbucket : bucket index "examples"
                    = records_for fs "examples"
                        (get_resource_files self fs package_id version None)).
  { unfold bucket. now rewrite Hbuckets by (simpl; tauto). }
  assert (Hrecord : forall r, In r (bucket index "examples") ->
            exists f,
              In f (get_resource_files self fs package_id version None) /\
              filed_under fs f = Some ("examples", r) /\
              (declared_type fs f = Some (JStr "examples") \/
               (map fst r = ["resourceType"; "id"; "file_path"] /\
                forall query, query <> EmptyString -> query_hits query r = false))).
  { intros r. rewrite Hbucket. intros Hr. apply records_for_in in Hr.
    destruct Hr as (f & Hf & Hfiled). exists f. split; [exact Hf |].
    split; [exact Hfiled |].
    unfold filed_under in Hfiled. unfold declared_type.
    destruct (load fs f) as [[| b | t | s | l | d] | e]; try discriminate.
    destruct (get_default d "resourceType" (JStr "unknown")) as [| b | t | s | l | d'];
      cbn [key_in py_str] in Hfiled; try discriminate;
      try (injection Hfiled as <-; right; apply example_record_plain).
    destruct (assoc s new_index).
    - injection Hfiled as Hs _. left. now rewrite Hs.
    - injection Hfiled as <-. right. apply example_record_plain. }
  assert (Htaken : forall query r,
            query <> EmptyString ->
            In r (search_bucket (Some query) "examples" (bucket index "examples")) ->
            exists f r0,
              In f (get_resource_files self fs package_id version None) /\
              declared_type fs f = Some (JStr "examples") /\
              filed_under fs f = Some ("examples", r0) /\
              r = tagged "examples" r0).
  { intros query r Hq Hr. apply search_bucket_query_in in Hr; [| exact Hq].
    destruct Hr as (r0 & Hr0 & Hhit & ->).
    destruct (Hrecord r0 Hr0) as (f & Hf & Hfiled & [Hdecl | [_ Hmiss]]).
    - exists f, r0. auto.
    - rewrite (Hmiss query Hq) in Hhit. discriminate. }
  split; [| split; [exact Hrecord | split; [exact Htaken |]]].
  - intros f t Hf Hdecl Hkey. unfold declared_type in Hdecl.
    assert (Hfiled : filed_under fs f
                     = Some ("examples",
                             example_record t
                               match load fs f with
                               | Loads (JObj d) => d
                               | _ => []
                               end f)).
    { unfold filed_under.
      destruct (load fs f) as [[| b | t' | s | l | d] | e]; try discriminate.
      injection Hdecl as ->. now rewrite Hkey. }
    eexists. split; [exact Hfiled |]. split.
    + rewrite Hbucket. eapply records_for_intro; eauto.
    + apply example_record_plain.
  - intros Hnone.
    assert (Hplain : forall r, In r (bucket index "examples") ->
                               map fst r = ["resourceType"; "id"; "file_path"]).
    { intros r Hr. destruct (Hrecord r Hr) as (f & Hf & _ & [Hdecl | [Hthree _]]);
        [now apply Hnone in Hdecl | exact Hthree]. }
    assert (Hmiss : forall query, query <> EmptyString ->
              search_bucket (Some query) "examples" (bucket index "examples") = []).
    { intros query Hq.
      destruct (search_bucket (Some query) "examples" (bucket index "examples"))
        as [| r rs] eqn:Hs; [reflexivity |].
      destruct (Htaken query r Hq) as (f & r0 & Hf & Hdecl & _).
      - rewrite Hs. now left.
      - now apply Hnone in Hdecl. }
    split; [exact Hplain |].
    intros query Hq. split; [now apply Hmiss |].
    specialize (Hmiss query Hq). unfold bucket in Hmiss. unfold keys in Hk.
    destruct index as [| [k1 b1] [| [k2 b2] [| [k3 b3] [| [k4 b4] [| [k5 b5]
      [| [k6 b6] [| [k7 b7] [| ? ?]]]]]]]]; try discriminate.
    injection Hk as -> -> -> -> -> -> ->. simpl in Hmiss.
    unfold search_index. simpl. rewrite Hmiss. reflexivity.
Qed.

Lemma examples_records_never_hit_witness :
  exists index,
    build_resource_index manager scenario_a "core" "1.0.0" = Ok index /\
    (exists r,
        filed_under scenario_a (core_dir // "c.json") = Some ("examples", r) /\
        In r (bucket index "examples") /\
        map fst r = ["resourceType"; "id"; "file_path"]) /\
    search_index index (Some "patient") (Some "examples") = [].
Proof.
  eexists. split; [reflexivity |].
  destruct (examples_records_never_hit manager scenario_a "core" "1.0.0" _ eq_refl)
    as (Hfile & _ & _ & Hnone).
  split.
  - destruct (Hfile (core_dir // "c.json") (JStr "Patient")) as (r & Hfiled & Hin & Hthree & _).
    + right. right. left. reflexivity.
    + reflexivity.
    + reflexivity.
    + exists r. auto.
  - assert (Hdecl : forall f,
               In f (get_resource_files manager scenario_a "core" "1.0.0" None) ->
               declared_type scenario_a f <> Some (JStr "examples")).
    { intros f Hf. simpl in Hf.
      repeat (destruct Hf as [<- | Hf]; [vm_compute; discriminate |]). contradiction. }
    destruct (Hnone Hdecl) as [_ Hq]. apply Hq. discriminate.
Defined.

(** C10 fails on a file that declares the type ["examples"]: it is
    filed in the ["examples"] bucket with the fields of a typed record,
    [name], [url] and [title] among them, and a query finds it there. *)
Lemma examples_type_record_is_hit :
  exists index r,
    build_resource_index manager with_examples_type "core" "1.0.0" = Ok index /\
    bucket index "examples" = [r] /\
    map fst r = ["id"; "url"; "name"; "title"; "version"; "file_path"] /\
    search_index index (Some "foo") None = [tagged "examples" r].
Proof.
  do 2 eexists. split; [reflexivity |]. split; [reflexivity |]. split; reflexivity.
Qed.

(* ------------------------------------------------------------------ *)
(** ** Counting the records of an index *)

Lemma total_records_append_to index k r :
  (exists rs, assoc k index = Some rs) ->
  total_records (append_to index k r) = S (total_records index).
Proof.
  unfold total_records. induction index as [| [k' rs'] index IH]; simpl.
  - intros [rs Hrs]. discriminate.
  - eqb_cases k' k; simpl.
    + intros _. rewrite length_app. simpl. lia.
    + intros Hin. rewrite IH by exact Hin. lia.
Qed.

Lemma index_file_counts fs index file_path index' :
  keys index = seven_keys ->
  index_file fs index file_path = Ok index' ->
  total_records index'
  = total_records index + (if parsed fs file_path then 1 else 0).
Proof.
  intros Hk. unfold index_file, parsed.
  destruct (load fs file_path) as [[| b | t | s | l | d] | e]; try discriminate.
  - destruct (get_default d "resourceType" (JStr "unknown")) as [| b | t | s | l | d'];
      cbn [key_in py_str]; try discriminate;
      try (intros [= <-]; rewrite total_records_append_to; [lia |];
           apply assoc_in_keys; fold (keys index); rewrite Hk; simpl; tauto).
    destruct (assoc s index) as [rs |] eqn:Hs; intros [= <-].
    + rewrite total_records_append_to by eauto. lia.
    + rewrite total_records_append_to; [lia |].
      apply assoc_in_keys. fold (keys index). rewrite Hk. simpl. tauto.
  - destruct (skipped e); [| discriminate]. intros [= <-]. lia.
Qed.

Lemma index_files_counts fs files : forall index index',
  keys index = seven_keys ->
  index_files fs index files = Ok index' ->
  total_records index'
  = total_records index + length (filter (parsed fs) files).
Proof.
  induction files as [| f files IH]; intros index index' Hk; simpl.
  - intros [= <-]. lia.
  - destruct (index_file fs index f) as [index1 |] eqn:Hf; [| discriminate].
    intros Hrest.
    assert (Hk1 : keys index1 = seven_keys).
    { pose proof (index_file_filed _ _ _ _ Hk Hf) as ->.
      destruct (filed_under fs f) as [[k r] |]; [now rewrite keys_append_to | exact Hk]. }
    rewrite (IH _ _ Hk1 Hrest), (index_file_counts _ _ _ _ Hk Hf).
    destruct (parsed fs f); simpl; lia.
Qed.

(** When [build_resource_index] returns an index, it holds one record
    for each entry of the enumeration that parsed, an entry listed
    twice counting twice. *)
Lemma index_counts_enumeration self fs package_id version index :
  build_resource_index self fs package_id version = Ok index ->
  total_records index
  = length (filter (parsed fs) (get_resource_files self fs package_id version None)).
Proof.
  unfold build_resource_index. intros Hb.
  apply index_files_counts in Hb; [exact Hb | reflexivity].
Qed.

(** Over such candidates the loop runs to its end. *)
Lemma index_files_total fs files : forall index,
  keys index = seven_keys ->
  forallb (indexable fs) files = true ->
  exists index', index_files fs index files = Ok index'.
Proof.
  induction files as [| f files IH]; intros index Hk; simpl; [eauto |].
  intros Hall. apply andb_prop in Hall. destruct Hall as [Hf Hall].
  assert (Hstep : exists index1, index_file fs index f = Ok index1).
  { unfold indexable in Hf. unfold index_file.
    destruct (load fs f) as [[| b | t | s | l | d] | e]; try discriminate.
    - rewrite (key_in_same_keys _ index new_index) by exact Hk.
      destruct (key_in _ new_index) as [[|] |]; [eauto | eauto | discriminate].
    - rewrite Hf. eauto. }
  destruct Hstep as [index1 Hstep]. rewrite Hstep. apply IH; [| exact Hall].
  pose proof (index_file_filed _ _ _ _ Hk Hstep) as ->.
  destruct (filed_under fs f) as [[k r] |]; [now rewrite keys_append_to | exact Hk].
Qed.

(** [build_resource_index] returns an index when every candidate is one
    the loop can take. *)
Lemma build_resource_index_total self fs package_id version :
  forallb (indexable fs) (get_resource_files self fs package_id version None) = true ->
  exists index, build_resource_index self fs package_id version = Ok index.
Proof.
  intros Hall. unfold build_resource_index. now apply index_files_total.
Qed.

(* ------------------------------------------------------------------ *)
(** ** The enumeration of candidate files *)

Lemma lookup_child n p s :
  lookup n (p // s) =
  match lookup n p with
  | Some (Dir es) => assoc s es
  | _ => None
  end.
Proof.
  unfold child. revert n. induction p as [| t p IH]; intros n; simpl.
  - destruct n as [c | es]; [reflexivity |]. now destruct (assoc s es).
  - destruct n as [c | es]; [reflexivity |].
    destruct (assoc t es) as [c |]; [apply IH | reflexivity].
Qed.

Lemma assoc_in {A : Type} (k : string) (l : list (string * A)) (v : A) :
  assoc k l = Some v -> In (k, v) l.
Proof.
  induction l as [| [k' v'] l IH]; simpl; [discriminate |].
  eqb_cases k' k; [intros [= ->]; now left | intros H; right; now apply IH].
Qed.

(** What a recursive glob finds below an entry of a directory, it finds
    from the directory. *)
Lemma rglob_from_entry matches here es s c f :
  In (s, c) es ->
  In f (rglob_from matches (here // s) c) ->
  In f (rglob_from matches here (Dir es)).
Proof.
  intros Hin Hf. cbn [rglob_from]. apply in_or_app. right.
  induction es as [| e es IH]; [contradiction |].
  apply in_or_app. destruct Hin as [-> | Hin]; [left; exact Hf | right; now apply IH].
Qed.

Lemma rglob_child fs p s matches f :
  In f (rglob fs (p // s) matches) -> In f (rglob fs p matches).
Proof.
  unfold rglob. rewrite lookup_child.
  destruct (lookup fs p) as [[c | es] |]; try contradiction.
  destruct (assoc s es) as [c |] eqn:Hs; [| contradiction].
  apply rglob_from_entry. now apply assoc_in.
Qed.

(** The enumeration of an installed package, search directory by
    search directory. *)
Lemma get_resource_files_installed self fs package_id version resource_type :
  path_exists fs (package_dir_of self package_id version) = true ->
  get_resource_files self fs package_id version resource_type =
  ((if path_exists fs (package_dir_of self package_id version // "package")
    then rglob fs (package_dir_of self package_id version // "package")
           (pattern_for resource_type)
    else [])
   ++ rglob fs (package_dir_of self package_id version) (pattern_for resource_type)
   ++ (if path_exists fs (package_dir_of self package_id version // "input")
       then rglob fs (package_dir_of self package_id version // "input")
              (pattern_for resource_type)
       else []))%list.
Proof.
  intros Hex. unfold get_resource_files. rewrite Hex. cbn [negb fold_left]. rewrite Hex.
  destruct (path_exists fs (_ // "package")); destruct (path_exists fs (_ // "input"));
    cbn [app]; rewrite ?app_nil_r, <- ?app_assoc; reflexivity.
Qed.

(** Every file found under [package/] or [input/] is listed again by
    the glob of the package directory itself: it is in the enumeration
    at two places. *)
Lemma file_under_search_dir_listed_twice self fs package_id version resource_type sub f :
  sub = "package" \/ sub = "input" ->
  In f (rglob fs (package_dir_of self package_id version // sub)
          (pattern_for resource_type)) ->
  exists l1 l2 l3,
    get_resource_files self fs package_id version resource_type
    = (l1 ++ f :: l2 ++ f :: l3)%list.
Proof.
  intros Hsub Hf.
  assert (Hroot : In f (rglob fs (package_dir_of self package_id version)
                          (pattern_for resource_type)))
    by (eapply rglob_child; eauto).
  assert (Hex_sub : path_exists fs (package_dir_of self package_id version // sub) = true).
  { unfold path_exists. unfold rglob in Hf. now destruct (lookup fs (_ // sub)). }
  assert (Hex : path_exists fs (package_dir_of self package_id version) = true).
  { unfold path_exists. unfold rglob in Hroot. now destruct (lookup fs _). }
  rewrite get_resource_files_installed by exact Hex.
  apply in_split in Hf. destruct Hf as (a1 & a2 & Ha).
  apply in_split in Hroot. destruct Hroot as (b1 & b2 & Hb).
  destruct Hsub as [-> | ->]; rewrite Hex_sub, Ha, Hb.
  - exists a1, (a2 ++ b1)%list,
      (b2 ++ (if path_exists fs (package_dir_of self package_id version // "input")
              then rglob fs (package_dir_of self package_id version // "input")
                     (pattern_for resource_type)
              else []))%list.
    now rewrite <- !app_assoc.
  - exists ((if path_exists fs (package_dir_of self package_id version // "package")
             then rglob fs (package_dir_of self package_id version // "package")
                    (pattern_for resource_type)
             else []) ++ b1)%list, (b2 ++ a1)%list, a2.
    now rewrite <- !app_assoc.
Qed.

(** C2 on the code: in a package laid out as the registry ships it, the
    one file [package/a.json] is listed twice by the enumeration, once
    under [package/] and once under the package directory, and the index
    holds two records for it: two records for one parsed file. *)
Theorem shipped_file_indexed_twice :
  get_resource_files manager shipped "core" "1.0.0" None
  = [core_dir // "package" // "a.json"; core_dir // "package" // "a.json"] /\
  length (nodup path_eq_dec
            (filter (parsed shipped)
               (get_resource_files manager shipped "core" "1.0.0" None))) = 1 /\
  exists index r,
    build_resource_index manager shipped "core" "1.0.0" = Ok index /\
    bucket index "StructureDefinition" = [r; r] /\
    get r "file_path" = JStr "/home/user/.fhir/packages/core/1.0.0/package/a.json" /\
    total_records index = 2.
Proof.
  split; [reflexivity |]. split; [reflexivity |].
  do 2 eexists. split; [reflexivity |]. split; [reflexivity |]. split; reflexivity.
Qed.

(** C6 on the code: a file that is not valid JSON is skipped and the
    valid file next to it is indexed; but a file that holds a JSON array
    parses and then stops the indexing with [AttributeError], and a file
    that cannot be decoded stops it with [UnicodeDecodeError]: no index
    is returned, the valid file next to it notwithstanding. *)
Theorem indexing_stops_on_unexpected_file :
  (exists index,
      build_resource_index manager with_invalid_json "core" "1.0.0" = Ok index /\
      total_records index = 1) /\
  parsed with_json_array (core_dir // "a.json") = true /\
  parsed with_json_array (core_dir // "list.json") = true /\
  build_resource_index manager with_json_array "core" "1.0.0" = Raise AttributeError /\
  parsed with_undecodable (core_dir // "a.json") = true /\
  parsed with_undecodable (core_dir // "latin.json") = false /\
  build_resource_index manager with_undecodable "core" "1.0.0" = Raise UnicodeDecodeError.
Proof.
  split; [eexists; split; reflexivity |].
  repeat (split; [reflexivity |]). reflexivity.
Qed.

(* ================================================================== *)
(** * Further properties of the code *)
(* ================================================================== *)

(* ------------------------------------------------------------------ *)
(** ** Listing the installed packages *)

Lemma name_child p s : name (p // s) = s.
Proof. unfold name, child. apply last_last. Qed.

Lemma child_inj p q s t : p // s = q // t -> p = q /\ s = t.
Proof. unfold child. intros H. now apply app_inj_tail in H. Qed.

Lemma filter_map_swap {A B : Type} (f : A -> B) (keep : B -> bool) (l : list A) :
  filter keep (map f l) = map f (filter (fun a => keep (f a)) l).
Proof.
  induction l as [| a l IH]; simpl; [reflexivity |].
  destruct (keep (f a)); simpl; now rewrite IH.
Qed.

Lemma list_versions_filter fs package_name version_dirs : forall packages,
  list_versions fs package_name version_dirs packages
  = (packages
     ++ map (installed_entry package_name) (filter (is_dir fs) version_dirs))%list.
Proof.
  induction version_dirs as [| d ds IH]; intros packages; simpl.
  - now rewrite app_nil_r.
  - rewrite IH. destruct (is_dir fs d); simpl; [now rewrite <- app_assoc | reflexivity].
Qed.

(** The outer loop never raises: it lists, directory after directory,
    the version directories below. *)
Lemma list_packages_versions fs package_dirs : forall packages,
  list_packages fs package_dirs packages
  = Ok (packages ++ flat_map (versions_of fs) package_dirs)%list.
Proof.
  induction package_dirs as [| d ds IH]; intros packages; simpl.
  - now rewrite app_nil_r.
  - unfold versions_of at 1, iterdir, is_dir.
    destruct (lookup fs d) as [[c | es] |]; simpl.
    + apply IH.
    + rewrite IH, list_versions_filter, filter_map_swap, map_map, <- app_assoc.
      reflexivity.
    + apply IH.
Qed.

(** What [list_installed] returns, in closed form. *)
Lemma list_installed_closed self fs :
  list_installed self fs =
  match lookup fs (cache_dir self) with
  | None => Ok []
  | Some (File _) => Raise (OSError "NotADirectoryError")
  | Some (Dir es) =>
      Ok (flat_map (versions_of fs) (map (fun e => cache_dir self // fst e) es))
  end.
Proof.
  unfold list_installed, path_exists, iterdir.
  destruct (lookup fs (cache_dir self)) as [[c | es] |]; simpl; try reflexivity.
  now rewrite list_packages_versions.
Qed.

Lemma is_dir_child fs p s :
  is_dir fs (p // s) = true ->
  exists es es', lookup fs p = Some (Dir es) /\ assoc s es = Some (Dir es').
Proof.
  unfold is_dir. rewrite lookup_child.
  destruct (lookup fs p) as [[c | es] |]; try discriminate.
  destruct (assoc s es) as [[c | es'] |] eqn:Hs; try discriminate.
  eauto.
Qed.

Lemma in_versions_of fs package_dir entry :
  In entry (versions_of fs package_dir) <->
  exists v, entry = installed_entry (name package_dir) (package_dir // v) /\
            is_dir fs (package_dir // v) = true.
Proof.
  unfold versions_of. split.
  - destruct (lookup fs package_dir) as [[c | es] |]; try contradiction.
    rewrite in_map_iff. intros ([v n] & <- & Hin). apply filter_In in Hin.
    exists v. simpl in *. tauto.
  - intros (v & -> & Hd). destruct (is_dir_child _ _ _ Hd) as (es & es' & Hp & Hv).
    rewrite Hp. apply in_map_iff. exists (v, Dir es'). split; [reflexivity |].
    apply filter_In. split; [now apply assoc_in | exact Hd].
Qed.

(** What is listed, for a cache root that is absent or a directory. *)
Lemma in_list_installed self fs packages entry :
  list_installed self fs = Ok packages ->
  In entry packages <->
  exists package_id version,
    entry = entry_of self package_id version /\
    is_dir fs (package_dir_of self package_id version) = true.
Proof.
  rewrite list_installed_closed. unfold entry_of, package_dir_of.
  destruct (lookup fs (cache_dir self)) as [[c | es] |] eqn:Hroot; try discriminate.
  - intros [= <-]. rewrite in_flat_map. split.
    + intros (d & Hd & Hin). apply in_map_iff in Hd. destruct Hd as ([i n] & <- & Hi).
      apply in_versions_of in Hin. destruct Hin as (v & -> & Hv).
      exists i, v. simpl. now rewrite name_child.
    + intros (i & v & -> & Hd).
      destruct (is_dir_child _ _ _ Hd) as (es1 & es2 & Hp & _).
      assert (Hi : is_dir fs (cache_dir self // i) = true)
        by (unfold is_dir; now rewrite Hp).
      destruct (is_dir_child _ _ _ Hi) as (es0 & es1' & Hroot' & Hi').
      rewrite Hroot in Hroot'. injection Hroot' as <-.
      exists (cache_dir self // i). split.
      * apply in_map_iff. exists (i, Dir es1'). split; [reflexivity | now apply assoc_in].
      * apply in_versions_of. exists v. now rewrite name_child.
  - intros [= <-]. split; [contradiction |].
    intros (i & v & _ & Hd). destruct (is_dir_child _ _ _ Hd) as (es1 & _ & Hp & _).
    assert (Hi : is_dir fs (cache_dir self // i) = true)
      by (unfold is_dir; now rewrite Hp).
    destruct (is_dir_child _ _ _ Hi) as (es0 & _ & Hroot' & _). congruence.
Qed.

(** X1: when [list_installed] returns, an identity whose id and version
    are plain segments is listed, with its id, its version and the text
    of its directory, exactly when its directory [cache_dir/id/version]
    is a directory; and every entry listed is the entry of an id and a
    version whose directory is a directory. *)
Theorem list_installed_lists_directories self fs packages :
  list_installed self fs = Ok packages ->
  (forall package_id version,
      plain_segment package_id = true -> plain_segment version = true ->
      (In (entry_of self package_id version) packages <->
       is_dir fs (package_dir_of self package_id version) = true)) /\
  (forall entry, In entry packages ->
      exists package_id version,
        entry = entry_of self package_id version /\
        is_dir fs (package_dir_of self package_id version) = true).
Proof.
  intros Hl. split.
  - intros i v _ _. rewrite (in_list_installed _ _ _ _ Hl). split.
    + intros (i' & v' & Heq & Hd). unfold entry_of, installed_entry in Heq.
      injection Heq as -> Hv _. unfold package_dir_of in Hv. rewrite !name_child in Hv.
      now subst v'.
    + intros Hd. eauto.
  - intros entry Hin. apply (in_list_installed _ _ _ _ Hl) in Hin.
    destruct Hin as (i & v & -> & Hd). eauto.
Qed.

Lemma list_installed_lists_directories_witness :
  exists packages,
    list_installed manager shipped = Ok packages /\
    In (entry_of manager "core" "1.0.0") packages /\
    ~ In (entry_of manager "core" "2.0.0") packages.
Proof.
  eexists. split; [reflexivity |].
  destruct (list_installed_lists_directories manager shipped _ eq_refl) as [Hiff _].
  split.
  - apply Hiff; reflexivity.
  - intros Hin. apply Hiff in Hin; [discriminate | reflexivity | reflexivity].
Defined.

(** Over a cache root that is a directory the listing returns. *)
Lemma list_installed_of_dir self fs :
  is_dir fs (cache_dir self) = true ->
  exists packages, list_installed self fs = Ok packages.
Proof.
  rewrite list_installed_closed. unfold is_dir.
  destruct (lookup fs (cache_dir self)) as [[c | es] |]; try discriminate. eauto.
Qed.

(** X2: [list_installed] returns a list whenever the cache root is
    absent (the empty list) or a directory; it raises
    [NotADirectoryError] when the cache root is a regular file, which
    the test [cache_dir.exists()] lets through. *)
Theorem list_installed_outcome self fs :
  (path_exists fs (cache_dir self) = false -> list_installed self fs = Ok []) /\
  (is_dir fs (cache_dir self) = true -> exists packages, list_installed self fs = Ok packages) /\
  (path_exists fs (cache_dir self) = true -> is_dir fs (cache_dir self) = false ->
   list_installed self fs = Raise (OSError "NotADirectoryError")).
Proof.
  rewrite list_installed_closed. unfold path_exists, is_dir.
  destruct (lookup fs (cache_dir self)) as [[c | es] |]; repeat split;
    try discriminate; eauto.
Qed.

Lemma list_installed_outcome_witness :
  list_installed manager (Dir []) = Ok [] /\
  (exists packages, list_installed manager empty_cache = Ok packages) /\
  list_installed manager
    (Dir [("home", Dir [("user", Dir [(".fhir", Dir [("packages", File (Loads JNull))])])])])
  = Raise (OSError "NotADirectoryError").
Proof.
  split; [| split].
  - apply (list_installed_outcome manager (Dir [])). reflexivity.
  - apply (list_installed_outcome manager empty_cache). reflexivity.
  - apply (list_installed_outcome manager
             (Dir [("home", Dir [("user", Dir [(".fhir",
                Dir [("packages", File (Loads JNull))])])])])); reflexivity.
Defined.

(* ------------------------------------------------------------------ *)
(** ** The steps of an install *)

(** The world after one more request. *)
Lemma requests_get_world url w :
  snd (requests_get url w)
  = {| fs := fs w; remote := remote w; requests := (requests w ++ [url])%list |}.
Proof. unfold requests_get. now destruct (remote w url). Qed.

Lemma _get_package_metadata_world self package_id version w :
  exists metadata,
    _get_package_metadata self package_id version w
    = (Ok metadata,
       {| fs := fs w; remote := remote w;
          requests := (requests w ++ [metadata_url self package_id version])%list |}).
Proof.
  unfold _get_package_metadata, try_except, bind, requests_get, raise_for_status,
    response_json, raise, ret.
  destruct (remote w _) as [resp |]; simpl; [| eauto].
  destruct (status_ok resp); simpl; [| eauto].
  destruct (body_json resp); simpl; eauto.
Qed.

(** Looking up the download URL makes the metadata request and nothing
    else. *)
Lemma find_download_url_world self package_id version w :
  snd (find_download_url self package_id version w)
  = {| fs := fs w; remote := remote w;
       requests := (requests w ++ [metadata_url self package_id version])%list |}.
Proof.
  unfold find_download_url. unfold bind at 1.
  destruct (_get_package_metadata_world self package_id version w) as [metadata ->].
  unfold bind, lift, raise, ret.
  destruct (negb (truthy metadata)); [reflexivity |].
  destruct (value_get metadata "dist" (JObj [])) as [dist |]; [| reflexivity].
  destruct (value_get dist "tarball" JNull) as [download_url |]; [| reflexivity].
  now destruct (negb (truthy download_url)).
Qed.

Lemma extractall_world members dest : forall w r w',
  extractall members dest w = (r, w') ->
  remote w' = remote w /\ requests w' = requests w.
Proof.
  induction members as [| m ms IH]; intros w r w'; simpl.
  - intros [= _ <-]. auto.
  - destruct (extract_member (fs w) dest m) as [n |].
    + intros H. apply IH in H. exact H.
    + intros [= _ <-]. auto.
Qed.

(** [_download_and_extract] makes one request, for the text of the URL;
    when it returns, the URL was a string with a known suffix, answered
    with success and read as the archive that was extracted. *)
Lemma _download_and_extract_inv url dest w r w' :
  _download_and_extract url dest w = (r, w') ->
  requests w' = (requests w ++ [py_str url])%list /\
  remote w' = remote w /\
  (r = Ok tt ->
   exists u resp members,
     url = JStr u /\ remote w u = Some resp /\ status_ok resp = true /\
     supported_suffix u = true /\ served_archive u resp = Some members /\
     extractall members dest
       {| fs := fs w; remote := remote w; requests := (requests w ++ [u])%list |}
     = (Ok tt, w')).
Proof.
  unfold _download_and_extract, bind, requests_get, raise_for_status, raise, ret.
  destruct (remote w (py_str url)) as [resp |] eqn:Hr;
    [| intros [= <- <-]; repeat split; discriminate].
  destruct (status_ok resp) eqn:Hs; [| intros [= <- <-]; repeat split; discriminate].
  destruct url as [| b | t | u | l | d];
    try (intros [= <- <-]; repeat split; discriminate).
  unfold supported_suffix, served_archive. simpl in Hr.
  destruct (endswith u ".tgz" || endswith u ".tar.gz") eqn:Htar.
  - destruct (body_tar resp) as [tar |] eqn:Hb;
      [| intros [= <- <-]; repeat split; discriminate].
    intros H. pose proof (extractall_world _ _ _ _ _ H) as [Hrem Hreq]. simpl in *.
    split; [exact Hreq |]. split; [exact Hrem |].
    intros ->. exists u, resp, tar. rewrite Htar. simpl. auto 10.
  - destruct (endswith u ".zip") eqn:Hzip;
      [| intros [= <- <-]; repeat split; discriminate].
    destruct (body_zip resp) as [z |] eqn:Hb;
      [| intros [= <- <-]; repeat split; discriminate].
    intros H. pose proof (extractall_world _ _ _ _ _ H) as [Hrem Hreq]. simpl in *.
    split; [exact Hreq |]. split; [exact Hrem |].
    intros ->. exists u, resp, z. rewrite Htar, Hzip. simpl. auto 10.
Qed.

(** The three ways an install of a package that is not cached can go:
    the URL is not found; the directory cannot be made; the directory is
    made and the download and extraction run. *)
Lemma install_package_fresh_inv self package_id version w r w' :
  path_exists (fs w) (package_dir_of self package_id version) = false ->
  install_package self package_id version w = (r, w') ->
  (exists e, find_download_url self package_id version w = (Raise e, w') /\ r = Raise e) \/
  (exists url w1,
     find_download_url self package_id version w = (Ok url, w1) /\
     ((exists e, mkdir_p (fs w) (package_dir_of self package_id version) = Raise e /\
                 r = Raise e /\ w' = w1) \/
      (exists n rd,
         mkdir_p (fs w) (package_dir_of self package_id version) = Ok n /\
         _download_and_extract url (package_dir_of self package_id version) (with_fs w1 n)
         = (rd, w') /\
         r = match rd with
             | Ok _ => Ok (package_dir_of self package_id version)
             | Raise e => Raise e
             end))).
Proof.
  set (package_dir := package_dir_of self package_id version).
  intros Hno. rewrite install_package_uncached by exact Hno. fold package_dir.
  unfold bind at 1.
  pose proof (find_download_url_fs self package_id version w) as Hfs.
  destruct (find_download_url self package_id version w) as [[url | e1] w1]; simpl in Hfs.
  - unfold bind at 1. unfold mkdir. rewrite Hfs. intros H. right. exists url, w1.
    split; [reflexivity |].
    destruct (mkdir_p (fs w) package_dir) as [n | em].
    + right. unfold bind at 1 in H.
      destruct (_download_and_extract url package_dir (with_fs w1 n))
        as [[[] | e2] w2] eqn:Hdl.
      * unfold ret in H. injection H as <- <-. exists n, (Ok tt). auto.
      * injection H as <- <-. exists n, (Raise e2). auto.
    + left. injection H as <- <-. eauto.
  - intros [= <- <-]. left. eauto.
Qed.

(** An install, however it ends, either leaves the filesystem as it was
    or leaves the directory of the identity in place. *)
Lemma install_package_fs self package_id version w r w' :
  install_package self package_id version w = (r, w') ->
  keeps_dirs (fs w) (fs w') /\
  (fs w' = fs w \/ is_dir (fs w') (package_dir_of self package_id version) = true).
Proof.
  set (package_dir := package_dir_of self package_id version).
  destruct (path_exists (fs w) package_dir) eqn:Hc.
  - rewrite install_package_cached by exact Hc. intros [= _ <-].
    split; [apply keeps_dirs_refl | now left].
  - intros H. apply install_package_fresh_inv in H; [| exact Hc]. fold package_dir in H.
    pose proof (find_download_url_fs self package_id version w) as Hfs.
    destruct H as [(e & Hf & _) | (url & w1 & Hf & [(e & _ & _ & ->) | (n & rd & Hmk & Hdl & _)])];
      rewrite Hf in Hfs; simpl in Hfs.
    + rewrite Hfs. split; [apply keeps_dirs_refl | now left].
    + rewrite Hfs. split; [apply keeps_dirs_refl | now left].
    + pose proof (_download_and_extract_keeps_dirs _ _ _ _ _ Hdl) as Hk. simpl in Hk.
      split.
      * eapply keeps_dirs_trans; [eapply mkdir_p_keeps_dirs; eauto | exact Hk].
      * right. apply Hk. eapply mkdir_p_is_dir; eauto.
Qed.

(** Below a directory there are directories only above. *)
Lemma is_dir_parent fs p s : is_dir fs (p // s) = true -> is_dir fs p = true.
Proof.
  intros H. destruct (is_dir_child _ _ _ H) as (es & _ & Hp & _).
  unfold is_dir. now rewrite Hp.
Qed.

(** X3: an install of a package that was not cached, for an id and a
    version that are plain segments, when it succeeds, puts the identity
    on the list of installed packages. *)
Theorem install_then_listed self package_id version w p w' :
  plain_segment package_id = true -> plain_segment version = true ->
  path_exists (fs w) (package_dir_of self package_id version) = false ->
  install_package self package_id version w = (Ok p, w') ->
  exists packages,
    list_installed self (fs w') = Ok packages /\
    In (entry_of self package_id version) packages.
Proof.
  intros _ _ Hno Hok.
  destruct (install_package_fs _ _ _ _ _ _ Hok) as [_ [Hsame | Hd]].
  - apply install_package_ok in Hok. destruct Hok as [_ Hex]. congruence.
  - assert (Hroot : is_dir (fs w') (cache_dir self) = true)
      by (eapply is_dir_parent, is_dir_parent; exact Hd).
    rewrite list_installed_closed. unfold is_dir in Hroot.
    destruct (lookup (fs w') (cache_dir self)) as [[c | es] |] eqn:Hl; try discriminate.
    eexists. split; [reflexivity |].
    assert (Hlist := list_installed_closed self (fs w')). rewrite Hl in Hlist.
    apply (in_list_installed _ _ _ _ Hlist). eauto.
Qed.

Lemma install_then_listed_witness :
  exists packages,
    list_installed manager (fs (snd (install_package manager "core" "1.0.0" serving_tgz)))
    = Ok packages /\
    In (entry_of manager "core" "1.0.0") packages.
Proof.
  apply (install_then_listed manager "core" "1.0.0" serving_tgz core_dir); reflexivity.
Defined.

(** X4: an install, whether it succeeds or fails and whatever identity
    it is for, removes nothing from the list of installed packages:
    when the list could be taken before, it can be taken afterwards and
    holds every entry it held. *)
Theorem install_keeps_listed self package_id version w r w' packages :
  install_package self package_id version w = (r, w') ->
  list_installed self (fs w) = Ok packages ->
  exists packages',
    list_installed self (fs w') = Ok packages' /\
    forall entry, In entry packages -> In entry packages'.
Proof.
  intros Hi Hl. destruct (install_package_fs _ _ _ _ _ _ Hi) as [Hk Hcase].
  assert (Hafter : exists packages', list_installed self (fs w') = Ok packages').
  { destruct Hcase as [-> | Hd]; [eauto |].
    apply list_installed_of_dir.
    eapply is_dir_parent, is_dir_parent; exact Hd. }
  destruct Hafter as [packages' Hl']. exists packages'. split; [exact Hl' |].
  intros entry Hin. apply (in_list_installed _ _ _ _ Hl) in Hin.
  destruct Hin as (i & v & -> & Hd).
  apply (in_list_installed _ _ _ _ Hl'). exists i, v. split; [reflexivity | now apply Hk].
Qed.

Lemma install_keeps_listed_witness :
  exists packages',
    list_installed manager
      (fs (snd (install_package manager "other" "2.0.0" offline_cached))) = Ok packages' /\
    In (entry_of manager "core" "1.0.0") packages'.
Proof.
  destruct (install_keeps_listed manager "other" "2.0.0" offline_cached _ _
              [entry_of manager "core" "1.0.0"] eq_refl eq_refl) as (packages' & Hl & Hin).
  exists packages'. split; [exact Hl | apply Hin; now left].
Defined.

(* ------------------------------------------------------------------ *)
(** ** What an install asks of the network, and how it fails *)

Lemma _get_package_metadata_answer self package_id version w :
  _get_package_metadata self package_id version w
  = (Ok (registry_answer self package_id version w),
     after_requests w [metadata_url self package_id version]).
Proof.
  unfold _get_package_metadata, registry_answer, try_except, bind, requests_get,
    raise_for_status, response_json, raise, ret, after_requests.
  destruct (remote w _) as [resp |]; simpl; [| reflexivity].
  destruct (status_ok resp); simpl; [| reflexivity].
  now destruct (body_json resp).
Qed.

(** Lines 32-40 of [install_package], by the registry's answer. *)
Lemma find_download_url_answer self package_id version w :
  find_download_url self package_id version w =
  (let metadata := registry_answer self package_id version w in
   if negb (truthy metadata) then
     Raise (ValueError ("Package " ++ package_id ++ "@" ++ version ++ " not found"))
   else
     match value_get metadata "dist" (JObj []) with
     | Raise e => Raise e
     | Ok dist =>
         match value_get dist "tarball" JNull with
         | Raise e => Raise e
         | Ok download_url =>
             if negb (truthy download_url) then
               Raise (ValueError ("No download URL found for " ++ package_id ++ "@" ++ version))
             else Ok download_url
         end
     end,
   after_requests w [metadata_url self package_id version]).
Proof.
  unfold find_download_url. unfold bind at 1. rewrite _get_package_metadata_answer.
  cbv zeta. unfold bind, lift, raise, ret.
  destruct (negb (truthy _)); [reflexivity |].
  destruct (value_get _ "dist" (JObj [])) as [dist |]; [| reflexivity].
  destruct (value_get dist "tarball" JNull) as [download_url |]; [| reflexivity].
  now destruct (negb (truthy download_url)).
Qed.

(** An install that fails before the directory is made. *)
Lemma install_package_no_url self package_id version w e :
  path_exists (fs w) (package_dir_of self package_id version) = false ->
  fst (find_download_url self package_id version w) = Raise e ->
  install_package self package_id version w
  = (Raise e, after_requests w [metadata_url self package_id version]).
Proof.
  intros Hno Hf. rewrite install_package_uncached by exact Hno. unfold bind at 1.
  pose proof (find_download_url_world self package_id version w) as Hw.
  destruct (find_download_url self package_id version w) as [[url | e1] w1];
    simpl in Hf, Hw; [discriminate |].
  injection Hf as ->. now rewrite Hw.
Qed.

(** X5: an install of a cached package asks nothing of the network.
    Any other install asks for the metadata first; it asks nothing more
    when no download URL comes out of the metadata or when the directory
    cannot be made; and when a download URL was found and the directory
    was made it asks, second and last, for the text of that URL.  The
    registry is left as it was. *)
Theorem install_requests self package_id version w r w' :
  install_package self package_id version w = (r, w') ->
  remote w' = remote w /\
  (path_exists (fs w) (package_dir_of self package_id version) = true ->
   requests w' = requests w) /\
  (path_exists (fs w) (package_dir_of self package_id version) = false ->
   (forall e,
      fst (find_download_url self package_id version w) = Raise e ->
      requests w' = (requests w ++ [metadata_url self package_id version])%list) /\
   (forall url e,
      fst (find_download_url self package_id version w) = Ok url ->
      mkdir_p (fs w) (package_dir_of self package_id version) = Raise e ->
      requests w' = (requests w ++ [metadata_url self package_id version])%list) /\
   (forall url made,
      fst (find_download_url self package_id version w) = Ok url ->
      mkdir_p (fs w) (package_dir_of self package_id version) = Ok made ->
      requests w'
      = (requests w ++ [metadata_url self package_id version; py_str url])%list)).
Proof.
  intros Hi.
  destruct (path_exists (fs w) (package_dir_of self package_id version)) eqn:Hc.
  - rewrite install_package_cached in Hi by exact Hc. injection Hi as _ <-.
    split; [reflexivity |]. split; [reflexivity | discriminate].
  - apply install_package_fresh_inv in Hi; [| exact Hc].
    pose proof (find_download_url_world self package_id version w) as Hw.
    destruct Hi as [(e & Hf & _) | (url & w1 & Hf & [(e & Hmk & _ & ->) | (n & rd & Hmk & Hdl & _)])];
      rewrite Hf in Hw; simpl in Hw; rewrite Hf; cbn [fst].
    + rewrite Hw. simpl. split; [reflexivity |]. split; [discriminate |].
      intros _. split; [reflexivity |]. split; intros; discriminate.
    + rewrite Hw. simpl. split; [reflexivity |]. split; [discriminate |].
      intros _. split; [intros; discriminate |].
      split; [reflexivity | intros; congruence].
    + apply _download_and_extract_inv in Hdl. destruct Hdl as (Hreq & Hrem & _).
      rewrite Hw in Hreq, Hrem. simpl in Hreq, Hrem.
      split; [exact Hrem |]. split; [discriminate |].
      intros _. split; [intros; discriminate |].
      split; [intros; congruence |].
      intros url' made [= <-] _. now rewrite Hreq, <- app_assoc.
Qed.

Lemma install_requests_witness :
  requests (snd (install_package manager "core" "1.0.0" offline_cached)) = [] /\
  requests (snd (install_package manager "core" "1.0.0" offline_empty))
  = ["https://packages.fhir.org/core/1.0.0"] /\
  requests (snd (install_package manager "core" "1.0.0" scenario_c))
  = ["https://packages.fhir.org/core/1.0.0";
     "https://packages.fhir.org/core/-/core-1.0.0.rar"].
Proof.
  split; [| split].
  - destruct (install_requests manager "core" "1.0.0" offline_cached _ _ eq_refl)
      as (_ & Hcached & _).
    apply Hcached. reflexivity.
  - destruct (install_requests manager "core" "1.0.0" offline_empty _ _ eq_refl)
      as (_ & _ & Hfresh).
    destruct (Hfresh eq_refl) as (Hnone & _ & _).
    apply (Hnone (ValueError "Package core@1.0.0 not found")). reflexivity.
  - destruct (install_requests manager "core" "1.0.0" scenario_c _ _ eq_refl)
      as (_ & _ & Hfresh).
    destruct (Hfresh eq_refl) as (_ & _ & Hboth).
    eapply (Hboth (JStr "https://packages.fhir.org/core/-/core-1.0.0.rar")); reflexivity.
Defined.

(** What a successful install of a package that was not cached went
    through. *)
Lemma install_package_fresh_ok self package_id version w p w' :
  path_exists (fs w) (package_dir_of self package_id version) = false ->
  install_package self package_id version w = (Ok p, w') ->
  exists u resp members made,
    fst (find_download_url self package_id version w) = Ok (JStr u) /\
    supported_suffix u = true /\
    remote w u = Some resp /\ status_ok resp = true /\
    served_archive u resp = Some members /\
    mkdir_p (fs w) (package_dir_of self package_id version) = Ok made /\
    extractall members (package_dir_of self package_id version)
      (with_fs (after_requests w [metadata_url self package_id version; u]) made)
    = (Ok tt, w').
Proof.
  intros Hno Hi. apply install_package_fresh_inv in Hi; [| exact Hno].
  pose proof (find_download_url_world self package_id version w) as Hw.
  destruct Hi as [(e & _ & He) | (url & w1 & Hf & [(e & _ & He & _) | (n & rd & Hmk & Hdl & Hr)])];
    try discriminate.
  rewrite Hf in Hw. simpl in Hw. subst w1.
  destruct rd as [[] | e]; [| discriminate].
  apply _download_and_extract_inv in Hdl. destruct Hdl as (_ & _ & Hok).
  destruct (Hok eq_refl) as (u & resp & members & -> & Hrem & Hst & Hsuf & Harch & Hex).
  exists u, resp, members, n. rewrite Hf. simpl in Hrem, Hex.
  rewrite <- app_assoc in Hex. simpl in Hex.
  unfold with_fs, after_requests. simpl.
  split; [reflexivity |]. repeat (split; [assumption |]). exact Hex.
Qed.




(** X7: when the package is not cached and the metadata lookup yields
    nothing (the request fails, the status is an error, the body is not
    JSON) or a body that is empty or false, the install raises
    [ValueError("Package id@version not found")] after that one request
    and leaves the filesystem as it was. *)
Theorem install_not_found self package_id version w :
  path_exists (fs w) (package_dir_of self package_id version) = false ->
  truthy (registry_answer self package_id version w) = false ->
  install_package self package_id version w
  = (Raise (ValueError ("Package " ++ package_id ++ "@" ++ version ++ " not found")),
     after_requests w [metadata_url self package_id version]).
Proof.
  intros Hno Hfalsy. apply install_package_no_url; [exact Hno |].
  rewrite find_download_url_answer. cbv zeta. now rewrite Hfalsy.
Qed.

Lemma install_not_found_witness :
  install_package manager "core" "1.0.0" offline_empty
  = (Raise (ValueError "Package core@1.0.0 not found"),
     after_requests offline_empty ["https://packages.fhir.org/core/1.0.0"]).
Proof.
  apply (install_not_found manager "core" "1.0.0" offline_empty); reflexivity.
Defined.

(** X8: when the package is not cached and the metadata is an object
    that is not empty but has no [dist], or whose [dist] is an object
    with no [tarball] or an empty or false one, the install raises
    [ValueError("No download URL found for id@version")] after the one
    metadata request and leaves the filesystem as it was. *)
Theorem install_no_download_url self package_id version w d :
  path_exists (fs w) (package_dir_of self package_id version) = false ->
  registry_answer self package_id version w = JObj d ->
  d <> [] ->
  (assoc "dist" d = None \/
   exists dist, assoc "dist" d = Some (JObj dist) /\ truthy (get dist "tarball") = false) ->
  install_package self package_id version w
  = (Raise (ValueError ("No download URL found for " ++ package_id ++ "@" ++ version)),
     after_requests w [metadata_url self package_id version]).
Proof.
  intros Hno Hans Hne Hdist. apply install_package_no_url; [exact Hno |].
  rewrite find_download_url_answer. cbv zeta. rewrite Hans.
  assert (Ht : truthy (JObj d) = true) by (destruct d; [congruence | reflexivity]).
  rewrite Ht. cbn [negb value_get]. unfold get_default at 1.
  destruct Hdist as [Hnone | (dist & Hsome & Hfalsy)].
  - rewrite Hnone. reflexivity.
  - rewrite Hsome. cbn [value_get]. unfold get in Hfalsy. now rewrite Hfalsy.
Qed.

Lemma install_no_download_url_witness :
  install_package manager "core" "1.0.0"
    {| fs := empty_cache;
       remote := fun _ => Some {| status_ok := true;
                                  body_json := Some (JObj [("name", JStr "core")]);
                                  body_tar := None; body_zip := None |};
       requests := [] |}
  = (Raise (ValueError "No download URL found for core@1.0.0"),
     after_requests
       {| fs := empty_cache;
          remote := fun _ => Some {| status_ok := true;
                                     body_json := Some (JObj [("name", JStr "core")]);
                                     body_tar := None; body_zip := None |};
          requests := [] |}
       ["https://packages.fhir.org/core/1.0.0"]).
Proof.
  apply (install_no_download_url manager "core" "1.0.0" _ [("name", JStr "core")]).
  - reflexivity.
  - reflexivity.
  - discriminate.
  - left. reflexivity.
Defined.

(** X9: when the package is not cached and the metadata is a value
    that is not empty or false but is no object (a list, a string, a
    number), or is an object whose [dist] is there but is no object
    ([null] for one), the install raises [AttributeError], not the
    [ValueError] of a missing URL; the filesystem is left as it was. *)
Theorem install_malformed_metadata self package_id version w :
  path_exists (fs w) (package_dir_of self package_id version) = false ->
  truthy (registry_answer self package_id version w) = true ->
  (is_object (registry_answer self package_id version w) = false \/
   exists d dist,
     registry_answer self package_id version w = JObj d /\
     assoc "dist" d = Some dist /\ is_object dist = false) ->
  install_package self package_id version w
  = (Raise AttributeError, after_requests w [metadata_url self package_id version]).
Proof.
  intros Hno Ht Hbad. apply install_package_no_url; [exact Hno |].
  rewrite find_download_url_answer. cbv zeta. rewrite Ht. cbn [negb].
  destruct Hbad as [Hobj | (d & dist & Hans & Hdist & Hobj)].
  - now destruct (registry_answer self package_id version w).
  - rewrite Hans. cbn [value_get]. unfold get_default at 1. rewrite Hdist.
    now destruct dist.
Qed.

Lemma install_malformed_metadata_witness :
  fst (install_package manager "core" "1.0.0"
         {| fs := empty_cache;
            remote := fun _ => Some {| status_ok := true;
                                       body_json := Some (JObj [("dist", JNull)]);
                                       body_tar := None; body_zip := None |};
            requests := [] |})
  = Raise AttributeError.
Proof.
  rewrite (install_malformed_metadata manager "core" "1.0.0").
  - reflexivity.
  - reflexivity.
  - reflexivity.
  - right. exists [("dist", JNull)], JNull. repeat split.
Defined.

(* ------------------------------------------------------------------ *)
(** ** What extraction leaves in the filesystem *)

Lemma lookup_file_path c p n : lookup (File c) p = Some n -> p = [].
Proof. destruct p; [reflexivity | discriminate]. Qed.

(** Where a file is written, it is. *)
Lemma write_file_lookup p : forall n c n',
  write_file n p c = Ok n' -> lookup n' p = Some (File c).
Proof.
  induction p as [| s p IH]; intros [c0 | es] c n'; simpl; try discriminate.
  - now intros [= <-].
  - destruct (assoc s es) as [ch |] eqn:Hs.
    + destruct (write_file ch p c) as [ch' |] eqn:Hc; [| discriminate].
      intros [= <-]. simpl. rewrite assoc_set_entry_eq. eauto.
    + intros [= <-]. simpl. rewrite (assoc_app_none _ _ _ Hs). simpl.
      rewrite String.eqb_refl. apply lookup_fresh.
Qed.

(** Writing a file leaves every other file as it is. *)
Lemma write_file_keeps_file q : forall n c n' p c0,
  write_file n q c = Ok n' ->
  lookup n p = Some (File c0) -> p <> q ->
  lookup n' p = Some (File c0).
Proof.
  induction q as [| s q IH]; intros [c1 | es] c n' p c0; simpl; try discriminate.
  - intros _ Hp Hne. apply lookup_file_path in Hp. congruence.
  - destruct p as [| t p]; [discriminate |]. simpl.
    destruct (assoc t es) as [ch0 |] eqn:Ht; [| discriminate].
    destruct (assoc s es) as [ch |] eqn:Hs.
    + destruct (write_file ch q c) as [ch' |] eqn:Hc; [| discriminate].
      intros [= <-] Hp Hne. simpl. eqb_cases t s.
      * rewrite assoc_set_entry_eq. rewrite Hs in Ht. injection Ht as <-.
        eapply IH; eauto. congruence.
      * rewrite assoc_set_entry_neq by exact E. now rewrite Ht.
    + intros [= <-] Hp _. simpl. now rewrite (assoc_app_some _ _ _ _ Ht).
Qed.

(** Making directories leaves every file as it is. *)
Lemma mkdir_p_keeps_file q : forall n n' p c0,
  mkdir_p n q = Ok n' ->
  lookup n p = Some (File c0) ->
  lookup n' p = Some (File c0).
Proof.
  induction q as [| s q IH]; intros [c1 | es] n' p c0; simpl; try discriminate.
  - now intros [= <-].
  - destruct p as [| t p]; [discriminate |]. simpl.
    destruct (assoc t es) as [ch0 |] eqn:Ht; [| discriminate].
    destruct (assoc s es) as [ch |] eqn:Hs.
    + destruct (mkdir_p ch q) as [ch' |] eqn:Hc; [| discriminate].
      intros [= <-] Hp. simpl. eqb_cases t s.
      * rewrite assoc_set_entry_eq. rewrite Hs in Ht. injection Ht as <-.
        eapply IH; eauto.
      * rewrite assoc_set_entry_neq by exact E. now rewrite Ht.
    + intros [= <-] Hp. simpl. now rewrite (assoc_app_some _ _ _ _ Ht).
Qed.

(** Members that are not the file [file_name] leave it as it is. *)
Lemma extractall_keeps_file dest file_name c members : forall w r w',
  Forall (fun m => ~ writes_file file_name m) members ->
  extractall members dest w = (r, w') ->
  lookup (fs w) (dest ++ file_name)%list = Some (File c) ->
  lookup (fs w') (dest ++ file_name)%list = Some (File c).
Proof.
  induction members as [| m ms IH]; intros w r w' Hall; simpl.
  - now intros [= _ <-].
  - inversion Hall as [| m' ms' Hm Hms]; subst.
    destruct (extract_member (fs w) dest m) as [n |] eqn:He; [| now intros [= _ <-]].
    intros Hrest Hl. apply (IH _ _ _ Hms Hrest). simpl.
    destruct m as [other c' | other]; simpl in He.
    + eapply write_file_keeps_file; eauto.
      intros Heq. apply app_inv_head in Heq. apply Hm. exists c'. now subst.
    + eapply mkdir_p_keeps_file; eauto.
Qed.

Lemma extractall_app dest before after : forall w w',
  extractall (before ++ after)%list dest w = (Ok tt, w') ->
  exists w1,
    extractall before dest w = (Ok tt, w1) /\ extractall after dest w1 = (Ok tt, w').
Proof.
  induction before as [| m ms IH]; intros w w'; simpl.
  - intros H. exists w. auto.
  - destruct (extract_member (fs w) dest m) as [n |]; [| discriminate].
    apply IH.
Qed.

(** A file of the archive that no later member replaces is, after a
    successful extraction, at its place below the destination. *)
Lemma extractall_places_file dest file_name c before after w w' :
  Forall (fun m => ~ writes_file file_name m) after ->
  extractall (before ++ MFile file_name c :: after)%list dest w = (Ok tt, w') ->
  lookup (fs w') (dest ++ file_name)%list = Some (File c).
Proof.
  intros Hafter H. apply extractall_app in H. destruct H as (w1 & _ & H).
  simpl in H.
  destruct (write_file (fs w1) (dest ++ file_name)%list c) as [n |] eqn:Hw; [| discriminate].
  eapply extractall_keeps_file; eauto. simpl. eapply write_file_lookup; eauto.
Qed.

(** After a successful install of a package that was not cached, a file
    of the served archive that no later member replaces is in the
    package directory under its name. *)
Lemma install_places_file self package_id version w p w' u resp file_name c before after :
  path_exists (fs w) (package_dir_of self package_id version) = false ->
  install_package self package_id version w = (Ok p, w') ->
  fst (find_download_url self package_id version w) = Ok (JStr u) ->
  remote w u = Some resp ->
  served_archive u resp = Some (before ++ MFile file_name c :: after)%list ->
  Forall (fun m => ~ writes_file file_name m) after ->
  lookup (fs w') (package_dir_of self package_id version ++ file_name)%list = Some (File c).
Proof.
  intros Hno Hi Hu Hr Ha Hafter.
  destruct (install_package_fresh_ok _ _ _ _ _ _ Hno Hi)
    as (u' & resp' & members & made & Hu' & _ & Hr' & _ & Ha' & _ & Hex).
  rewrite Hu in Hu'. injection Hu' as <-. rewrite Hr in Hr'. injection Hr' as <-.
  rewrite Ha in Ha'. injection Ha' as <-.
  eapply extractall_places_file; eauto.
Qed.

(** X10: install, then read the manifest.  For an id and a version
    that are plain segments and an archive of regular files and
    directories whose names are all plain: when a package that was not
    cached is installed with success from an archive that holds
    [package.json] at its root, with no later file member of that name,
    then [load_package_manifest] returns what that file holds. *)
Theorem install_then_manifest
    self package_id version w p w' u resp manifest before after :
  plain_segment package_id = true -> plain_segment version = true ->
  forallb plain_member
    (before ++ MFile ["package.json"] (Loads manifest) :: after)%list = true ->
  path_exists (fs w) (package_dir_of self package_id version) = false ->
  install_package self package_id version w = (Ok p, w') ->
  fst (find_download_url self package_id version w) = Ok (JStr u) ->
  remote w u = Some resp ->
  served_archive u resp
  = Some (before ++ MFile ["package.json"] (Loads manifest) :: after)%list ->
  Forall (fun m => ~ writes_file ["package.json"] m) after ->
  load_package_manifest self (fs w') package_id version = Ok manifest.
Proof.
  intros _ _ _ Hno Hi Hu Hr Ha Hafter.
  pose proof (install_places_file _ _ _ _ _ _ _ _ _ _ _ _ Hno Hi Hu Hr Ha Hafter) as Hl.
  unfold load_package_manifest, path_exists, load.
  change (package_dir_of self package_id version // "package.json")
    with (package_dir_of self package_id version ++ ["package.json"])%list.
  now rewrite Hl.
Qed.

Lemma install_then_manifest_witness :
  load_package_manifest manager
    (fs (snd (install_package manager "core" "1.0.0" serving_zip))) "core" "1.0.0"
  = Ok core_manifest.
Proof.
  apply (install_then_manifest manager "core" "1.0.0" serving_zip core_dir
           (snd (install_package manager "core" "1.0.0" serving_zip))
           "https://packages.fhir.org/core/-/core-1.0.0.zip"
           {| status_ok := true; body_json := None; body_tar := None;
              body_zip := Some [MFile ["package.json"] (Loads core_manifest);
                                MFile ["ValueSet-vs1.json"] (Loads (JObj vs1))] |}
           core_manifest []
           [MFile ["ValueSet-vs1.json"] (Loads (JObj vs1))]);
    try reflexivity.
  constructor; [| constructor]. intros [c Hc]. discriminate.
Defined.

(** X11: [load_package_manifest] looks for [package.json] at the root
    of the package directory only.  For a package that is not installed
    it returns [None]; and so it does for an installed package whose
    directory has no entry [package.json], a manifest under [package/]
    notwithstanding. *)
Theorem manifest_only_at_root self fs package_id version :
  (path_exists fs (package_dir_of self package_id version) = false ->
   load_package_manifest self fs package_id version = Ok JNull) /\
  (forall es,
     lookup fs (package_dir_of self package_id version) = Some (Dir es) ->
     assoc "package.json" es = None ->
     load_package_manifest self fs package_id version = Ok JNull).
Proof.
  unfold load_package_manifest, path_exists. rewrite lookup_child. split.
  - destruct (lookup fs (package_dir_of self package_id version)); [discriminate |].
    reflexivity.
  - intros es -> ->. reflexivity.
Qed.

Lemma manifest_only_at_root_witness :
  load_package_manifest manager empty_cache "core" "1.0.0" = Ok JNull /\
  load_package_manifest manager
    (cache_with [("package", Dir [("package.json", File (Loads core_manifest))])])
    "core" "1.0.0" = Ok JNull.
Proof.
  split.
  - apply (manifest_only_at_root manager empty_cache "core" "1.0.0"). reflexivity.
  - apply (proj2 (manifest_only_at_root manager
             (cache_with [("package", Dir [("package.json", File (Loads core_manifest))])])
             "core" "1.0.0")
             [("package", Dir [("package.json", File (Loads core_manifest))])]);
      reflexivity.
Defined.

(* ------------------------------------------------------------------ *)
(** ** What the enumeration finds *)

(** Induction on a filesystem tree, entry by entry. *)
Lemma node_tree_ind (P : node -> Prop) :
  (forall c, P (File c)) ->
  (forall es, Forall (fun e => P (snd e)) es -> P (Dir es)) ->
  forall n, P n.
Proof.
  intros HF HD. fix IH 1. intros [c | es]; [apply HF |].
  apply HD. induction es as [| e es IHes]; constructor; [apply IH | exact IHes].
Qed.

(** The subdirectory part of [rglob_from], by name. *)
Lemma rglob_from_dir matches here es :
  rglob_from matches here (Dir es)
  = (map (fun e => here // fst e) (filter (fun e => matches (fst e)) es)
     ++ flat_map (fun e => rglob_from matches (here // fst e) (snd e)) es)%list.
Proof.
  cbn [rglob_from]. apply f_equal.
  induction es as [| e es IH]; [reflexivity |].
  cbn [flat_map]. now rewrite <- IH.
Qed.

(** Every path a recursive glob yields lies below its starting point
    and ends in a name that matches. *)
Lemma rglob_from_sound matches n : forall here f,
  In f (rglob_from matches here n) ->
  exists rel nm, f = (here ++ rel ++ [nm])%list /\ matches nm = true.
Proof.
  induction n as [c | es IH] using node_tree_ind; intros here f; [contradiction |].
  rewrite rglob_from_dir, in_app_iff, in_map_iff, in_flat_map.
  intros [([s ch] & <- & Hin) | ([s ch] & Hin & Hf)].
  - apply filter_In in Hin. exists [], s. simpl in *. tauto.
  - rewrite Forall_forall in IH. destruct (IH _ Hin _ _ Hf) as (rel & nm & -> & Hm).
    exists (s :: rel), nm. unfold child. simpl. now rewrite <- app_assoc.
Qed.

(** Every path below the starting point that exists and ends in a name
    that matches is among the paths a recursive glob yields. *)
Lemma rglob_from_complete matches rel : forall here n nm x,
  lookup n (rel ++ [nm])%list = Some x -> matches nm = true ->
  In (here ++ rel ++ [nm])%list (rglob_from matches here n).
Proof.
  induction rel as [| s rel IH]; intros here [c | es] nm x; cbn [app lookup];
    try discriminate.
  - destruct (assoc nm es) as [y |] eqn:Hnm; [| discriminate]. intros _ Hm.
    rewrite rglob_from_dir. apply in_or_app. left.
    apply in_map_iff. exists (nm, y). split; [reflexivity |].
    apply filter_In. split; [now apply assoc_in | exact Hm].
  - destruct (assoc s es) as [ch |] eqn:Hs; [| discriminate]. intros Hl Hm.
    apply (rglob_from_entry matches here es s ch); [now apply assoc_in |].
    specialize (IH (here // s) ch nm x Hl Hm). unfold child in *.
    now rewrite <- app_assoc in IH.
Qed.

Lemma lookup_app n p : forall q,
  lookup n (p ++ q)%list =
  match lookup n p with
  | Some c => lookup c q
  | None => None
  end.
Proof.
  revert n. induction p as [| s p IH]; intros n q; simpl; [reflexivity |].
  destruct n as [c | es]; [reflexivity |].
  destruct (assoc s es); [apply IH | reflexivity].
Qed.

Lemma rglob_sound fs p matches f :
  In f (rglob fs p matches) ->
  exists rel nm, f = (p ++ rel ++ [nm])%list /\ matches nm = true.
Proof.
  unfold rglob. destruct (lookup fs p); [apply rglob_from_sound | contradiction].
Qed.

Lemma rglob_complete fs p matches rel nm :
  path_exists fs (p ++ rel ++ [nm])%list = true -> matches nm = true ->
  In (p ++ rel ++ [nm])%list (rglob fs p matches).
Proof.
  unfold path_exists, rglob. rewrite lookup_app.
  destruct (lookup fs p) as [n |]; [| discriminate].
  destruct (lookup n (rel ++ [nm])%list) as [x |] eqn:Hl; [| discriminate].
  intros _. eapply rglob_from_complete; eauto.
Qed.

(** A name that matches a pattern of [get_resource_files] ends in
    [.json]. *)
Lemma pattern_for_json resource_type nm :
  pattern_for resource_type nm = true -> endswith nm ".json" = true.
Proof.
  unfold pattern_for, matches_typed_json, matches_json.
  destruct resource_type as [t |]; [| auto].
  destruct (truthy_arg (Some t)); [| auto].
  intros H. apply andb_prop in H. tauto.
Qed.

(** X12: for a resource type that is absent or stands for itself in a
    glob pattern, every path [get_resource_files] returns lies strictly
    below the package directory and ends in a name that matches the
    pattern, so in [.json]; with such a type given, the name also holds
    the text of the type before its [.json]. *)
Theorem resource_files_below_package self fs package_id version resource_type f :
  literal_filter resource_type = true ->
  In f (get_resource_files self fs package_id version resource_type) ->
  exists rel nm,
    f = (package_dir_of self package_id version ++ rel ++ [nm])%list /\
    pattern_for resource_type nm = true /\
    endswith nm ".json" = true /\
    (forall t, resource_type = Some t -> t <> EmptyString ->
               py_in t (substring 0 (String.length nm - 5) nm) = true).
Proof.
  intros _ Hin.
  assert (Hform : exists rel nm,
             f = (package_dir_of self package_id version ++ rel ++ [nm])%list /\
             pattern_for resource_type nm = true).
  { destruct (path_exists fs (package_dir_of self package_id version)) eqn:Hex.
    - rewrite get_resource_files_installed in Hin by exact Hex.
      rewrite !in_app_iff in Hin. destruct Hin as [Hin | [Hin | Hin]].
      + destruct (path_exists fs (_ // "package")); [| contradiction].
        apply rglob_sound in Hin. destruct Hin as (rel & nm & -> & Hm).
        exists ("package" :: rel), nm. unfold child. now rewrite <- app_assoc.
      + now apply rglob_sound in Hin.
      + destruct (path_exists fs (_ // "input")); [| contradiction].
        apply rglob_sound in Hin. destruct Hin as (rel & nm & -> & Hm).
        exists ("input" :: rel), nm. unfold child. now rewrite <- app_assoc.
    - unfold get_resource_files in Hin. rewrite Hex in Hin. contradiction. }
  destruct Hform as (rel & nm & -> & Hm). exists rel, nm.
  split; [reflexivity |]. split; [exact Hm |].
  split; [now apply (pattern_for_json resource_type) |].
  intros t -> Hne. unfold pattern_for, truthy_arg in Hm.
  apply String.eqb_neq in Hne. rewrite Hne in Hm. simpl in Hm.
  unfold matches_typed_json in Hm. apply andb_prop in Hm. tauto.
Qed.

Lemma resource_files_below_package_witness :
  exists rel nm,
    core_dir // "ValueSet-vs1.json" = (core_dir ++ rel ++ [nm])%list /\
    endswith nm ".json" = true /\
    py_in "ValueSet" (substring 0 (String.length nm - 5) nm) = true.
Proof.
  destruct (resource_files_below_package manager typed_names "core" "1.0.0" (Some "ValueSet")
              (core_dir // "ValueSet-vs1.json") eq_refl)
    as (rel & nm & Hf & _ & Hjson & Htype).
  - left. reflexivity.
  - exists rel, nm. split; [exact Hf |]. split; [exact Hjson |].
    apply (Htype "ValueSet"); [reflexivity | discriminate].
Defined.

(** Whatever exists below the package directory under a matching name
    is enumerated. *)
Lemma found_path_is_enumerated self fs package_id version rel nm :
  path_exists fs (package_dir_of self package_id version ++ rel ++ [nm])%list = true ->
  endswith nm ".json" = true ->
  In (package_dir_of self package_id version ++ rel ++ [nm])%list
     (get_resource_files self fs package_id version None).
Proof.
  intros Hex Hm.
  assert (Hdir : path_exists fs (package_dir_of self package_id version) = true).
  { unfold path_exists in *. rewrite lookup_app in Hex.
    now destruct (lookup fs (package_dir_of self package_id version)). }
  rewrite get_resource_files_installed by exact Hdir.
  apply in_or_app. right. apply in_or_app. left. now apply rglob_complete.
Qed.

(** X13: for a resource type that is absent or stands for itself in a
    glob pattern, every path that exists below the package directory,
    at any depth, and ends in a name that matches the pattern is
    returned by [get_resource_files]: directories named like a JSON file
    and the manifest [package.json] included. *)
Theorem resource_files_complete self fs package_id version resource_type rel nm :
  literal_filter resource_type = true ->
  path_exists fs (package_dir_of self package_id version ++ rel ++ [nm])%list = true ->
  pattern_for resource_type nm = true ->
  In (package_dir_of self package_id version ++ rel ++ [nm])%list
     (get_resource_files self fs package_id version resource_type).
Proof.
  intros _ Hex Hm.
  assert (Hdir : path_exists fs (package_dir_of self package_id version) = true).
  { unfold path_exists in *. rewrite lookup_app in Hex.
    now destruct (lookup fs (package_dir_of self package_id version)). }
  rewrite get_resource_files_installed by exact Hdir.
  apply in_or_app. right. apply in_or_app. left. now apply rglob_complete.
Qed.

Lemma resource_files_complete_witness :
  In (core_dir ++ [] ++ ["ValueSet-vs1.json"])%list
     (get_resource_files manager typed_names "core" "1.0.0" (Some "ValueSet")) /\
  In (core_dir ++ ["package"] ++ ["a.json"])%list
     (get_resource_files manager shipped "core" "1.0.0" None).
Proof.
  split.
  - apply (resource_files_complete manager typed_names "core" "1.0.0" (Some "ValueSet")
             [] "ValueSet-vs1.json"); reflexivity.
  - apply (resource_files_complete manager shipped "core" "1.0.0" None ["package"] "a.json");
      reflexivity.
Defined.

Lemma filter_flat_map {A B : Type} (keep : B -> bool) (g : A -> list B) (l : list A) :
  filter keep (flat_map g l) = flat_map (fun a => filter keep (g a)) l.
Proof.
  induction l as [| a l IH]; simpl; [reflexivity |].
  now rewrite filter_app, IH.
Qed.

Lemma filter_filter_implied {A : Type} (p q : A -> bool) (l : list A) :
  (forall a, p a = true -> q a = true) ->
  filter p (filter q l) = filter p l.
Proof.
  intros Himp. induction l as [| a l IH]; simpl; [reflexivity |].
  destruct (q a) eqn:Hq; simpl.
  - now rewrite IH.
  - rewrite IH. destruct (p a) eqn:Hp; [| reflexivity].
    apply Himp in Hp. congruence.
Qed.

(** Globbing with a narrower pattern is globbing with the wider one and
    keeping the names the narrower one matches. *)
Lemma rglob_from_narrower narrow wide n :
  (forall s, narrow s = true -> wide s = true) ->
  forall here,
    rglob_from narrow here n
    = filter (fun f => narrow (name f)) (rglob_from wide here n).
Proof.
  intros Himp. induction n as [c | es IH] using node_tree_ind; intros here;
    [reflexivity |].
  rewrite !rglob_from_dir, filter_app, filter_map_swap, filter_flat_map. f_equal.
  - f_equal. rewrite <- (filter_filter_implied (fun e => narrow (fst e))
                           (fun e => wide (fst e))) by (intros e; apply Himp).
    apply filter_ext. intros e. now rewrite name_child.
  - induction es as [| e es IHes]; simpl; [reflexivity |].
    inversion IH as [| e' es' He Hes]; subst. now rewrite He, IHes.
Qed.

Lemma pattern_for_narrower resource_type s :
  pattern_for resource_type s = true -> pattern_for None s = true.
Proof. apply pattern_for_json. Qed.

(** X14: for a resource type that stands for itself in a glob pattern,
    the listing for the type is the full listing with only the paths
    kept whose file name ends in [.json] and holds the text of the type
    before that, in the same order: the type filters by file name, not
    by what a file declares. *)
Theorem resource_files_by_type_filters_names self fs package_id version resource_type :
  literal_filter resource_type = true ->
  get_resource_files self fs package_id version resource_type
  = filter (fun f => pattern_for resource_type (name f))
      (get_resource_files self fs package_id version None).
Proof.
  intros _.
  destruct (path_exists fs (package_dir_of self package_id version)) eqn:Hex.
  - rewrite !get_resource_files_installed by exact Hex.
    assert (Hglob : forall p,
               rglob fs p (pattern_for resource_type)
               = filter (fun f => pattern_for resource_type (name f))
                   (rglob fs p (pattern_for None))).
    { intros p. unfold rglob. destruct (lookup fs p); [| reflexivity].
      apply rglob_from_narrower. apply pattern_for_narrower. }
    rewrite !filter_app, !Hglob.
    destruct (path_exists fs (_ // "package")); destruct (path_exists fs (_ // "input"));
      reflexivity.
  - unfold get_resource_files. rewrite Hex. reflexivity.
Qed.

Lemma resource_files_by_type_filters_names_witness :
  get_resource_files manager typed_names "core" "1.0.0" (Some "ValueSet")
  = [core_dir // "ValueSet-vs1.json"] /\
  declared_type typed_names (core_dir // "vs2.json") = Some (JStr "ValueSet").
Proof.
  split; [| reflexivity].
  rewrite (resource_files_by_type_filters_names manager typed_names "core" "1.0.0"
             (Some "ValueSet") eq_refl).
  reflexivity.
Defined.

(* ------------------------------------------------------------------ *)
(** ** What the index holds *)

(** A candidate is filed under one of the seven keys. *)
Lemma filed_under_key fs f k r : filed_under fs f = Some (k, r) -> In k seven_keys.
Proof.
  unfold filed_under.
  destruct (load fs f) as [[| b | t | s | l | d] | e]; try discriminate.
  destruct (get_default d "resourceType" (JStr "unknown")) as [| b | t | s | l | d'];
    cbn [key_in py_str]; try discriminate;
    try (intros [= <- _]; simpl; tauto).
  destruct (assoc s new_index) eqn:Hs; intros [= <- _]; [| simpl; tauto].
  change seven_keys with (map fst new_index). apply assoc_in_keys. eauto.
Qed.

(** X15: when [build_resource_index] returns, each of its seven buckets
    holds exactly the records of the enumerated entries filed under it,
    in the order of the enumeration. *)
Theorem index_buckets_follow_enumeration self fs package_id version index :
  build_resource_index self fs package_id version = Ok index ->
  forall k, In k seven_keys ->
    bucket index k
    = records_for fs k (get_resource_files self fs package_id version None).
Proof.
  intros Hb k Hk. unfold bucket.
  destruct (build_resource_index_buckets _ _ _ _ _ Hb) as [_ Hbuckets].
  now rewrite Hbuckets.
Qed.

Lemma index_buckets_follow_enumeration_witness :
  exists index,
    build_resource_index manager scenario_a "core" "1.0.0" = Ok index /\
    bucket index "ValueSet"
    = records_for scenario_a "ValueSet"
        (get_resource_files manager scenario_a "core" "1.0.0" None).
Proof.
  eexists. split; [reflexivity |].
  apply (index_buckets_follow_enumeration manager scenario_a "core" "1.0.0" _ eq_refl).
  simpl. tauto.
Defined.

(** X16: when [build_resource_index] returns, the number of records
    over all buckets is the number of entries of the enumeration that
    parsed, an entry the enumeration lists twice counting twice. *)
Theorem index_size_is_parsed_entries self fs package_id version index :
  build_resource_index self fs package_id version = Ok index ->
  total_records index
  = length (filter (parsed fs) (get_resource_files self fs package_id version None)).
Proof. apply index_counts_enumeration. Qed.

Lemma index_size_is_parsed_entries_witness :
  exists index,
    build_resource_index manager with_invalid_json "core" "1.0.0" = Ok index /\
    total_records index
    = length (filter (parsed with_invalid_json)
                (get_resource_files manager with_invalid_json "core" "1.0.0" None)).
Proof.
  eexists. split; [reflexivity |].
  apply (index_size_is_parsed_entries manager with_invalid_json "core" "1.0.0" _ eq_refl).
Defined.

Lemma index_files_ok_indexable fs files : forall index index',
  keys index = seven_keys ->
  index_files fs index files = Ok index' ->
  forallb (indexable fs) files = true.
Proof.
  induction files as [| f files IH]; intros index index' Hk; simpl; [reflexivity |].
  destruct (index_file fs index f) as [index1 |] eqn:Hf; [| discriminate].
  intros Hrest. apply andb_true_intro. split.
  - unfold index_file in Hf. unfold indexable.
    destruct (load fs f) as [[| b | t | s | l | d] | e]; try discriminate.
    + rewrite (key_in_same_keys _ index new_index) in Hf by exact Hk.
      now destruct (key_in _ new_index).
    + now destruct (skipped e).
  - eapply IH; [| exact Hrest].
    pose proof (index_file_filed _ _ _ _ Hk Hf) as ->.
    destruct (filed_under fs f) as [[k r] |]; [now rewrite keys_append_to | exact Hk].
Qed.

(** X17: [build_resource_index] returns an index exactly when every
    enumerated entry either fails to load with a [JSONDecodeError] or an
    [OSError], or holds a JSON object whose [resourceType] can be hashed;
    any other entry (a JSON array or scalar, a file that cannot be
    decoded, a [resourceType] that is a list or object) makes it raise. *)
Theorem index_returned_iff_indexable self fs package_id version :
  (exists index, build_resource_index self fs package_id version = Ok index) <->
  forallb (indexable fs) (get_resource_files self fs package_id version None) = true.
Proof.
  split.
  - intros [index Hb]. unfold build_resource_index in Hb.
    eapply index_files_ok_indexable; [| exact Hb]. reflexivity.
  - apply build_resource_index_total.
Qed.

Lemma index_returned_iff_indexable_witness :
  (exists index, build_resource_index manager with_invalid_json "core" "1.0.0" = Ok index) /\
  ~ (exists index, build_resource_index manager with_json_array "core" "1.0.0" = Ok index).
Proof.
  split.
  - apply (index_returned_iff_indexable manager with_invalid_json "core" "1.0.0").
    reflexivity.
  - intros H. apply (index_returned_iff_indexable manager with_json_array "core" "1.0.0") in H.
    discriminate.
Defined.

(** X18: every file the glob finds under [package/] or [input/] is in
    the enumeration at two places at least, since the glob of the
    package directory finds it again. *)
Theorem search_dirs_overlap self fs package_id version resource_type sub f :
  sub = "package" \/ sub = "input" ->
  In f (rglob fs (package_dir_of self package_id version // sub)
          (pattern_for resource_type)) ->
  exists l1 l2 l3,
    get_resource_files self fs package_id version resource_type
    = (l1 ++ f :: l2 ++ f :: l3)%list.
Proof. apply file_under_search_dir_listed_twice. Qed.

Lemma search_dirs_overlap_witness :
  exists l1 l2 l3,
    get_resource_files manager shipped "core" "1.0.0" None
    = (l1 ++ (core_dir // "package" // "a.json")
          :: l2 ++ (core_dir // "package" // "a.json") :: l3)%list.
Proof.
  apply (search_dirs_overlap manager shipped "core" "1.0.0" None "package").
  - now left.
  - left. reflexivity.
Defined.

(** A file below the package directory that the loop files has its
    record in the bucket it is filed under. *)
Lemma build_resource_index_holds self fs package_id version index rel nm k r :
  build_resource_index self fs package_id version = Ok index ->
  endswith nm ".json" = true ->
  filed_under fs (package_dir_of self package_id version ++ rel ++ [nm])%list = Some (k, r) ->
  In r (bucket index k).
Proof.
  intros Hb Hjson Hfiled.
  destruct (build_resource_index_buckets _ _ _ _ _ Hb) as [_ Hbuckets].
  unfold bucket. rewrite Hbuckets by (eapply filed_under_key; eauto).
  eapply records_for_intro; [| exact Hfiled].
  apply found_path_is_enumerated; [| exact Hjson].
  unfold filed_under, load in Hfiled. unfold path_exists.
  now destruct (lookup fs _).
Qed.

(** X19: when [build_resource_index] returns, every file below the
    package directory, at any depth, whose name ends in [.json] and
    which holds a JSON object has its record in the bucket of the type
    it declares when that is a key of the index, and in ["examples"]
    otherwise. *)
Theorem index_holds_every_found_file self fs package_id version index rel nm k r :
  build_resource_index self fs package_id version = Ok index ->
  endswith nm ".json" = true ->
  filed_under fs (package_dir_of self package_id version ++ rel ++ [nm])%list = Some (k, r) ->
  In r (bucket index k).
Proof. apply build_resource_index_holds. Qed.

Lemma index_holds_every_found_file_witness :
  exists index,
    build_resource_index manager shipped "core" "1.0.0" = Ok index /\
    In (typed_record [("resourceType", JStr "StructureDefinition"); ("name", JStr "Foo")]
          (core_dir ++ ["package"] ++ ["a.json"])%list)
       (bucket index "StructureDefinition").
Proof.
  eexists. split; [reflexivity |].
  apply (index_holds_every_found_file manager shipped "core" "1.0.0" _ ["package"] "a.json"
           "StructureDefinition" _ eq_refl); reflexivity.
Defined.

(** X20: install, then index.  For an id and a version that are plain
    segments and an archive of regular files and directories whose
    names are all plain: when a package that was not cached is installed
    with success from an archive that holds, under a name ending in
    [.json] that no later file member has, a JSON object declaring one
    of the types the index has a key for, and the index of the installed
    package can be built, then the bucket of that type holds the record
    of that file. *)
Theorem install_then_indexed
    self package_id version w p w' u resp rel nm d t before after index :
  plain_segment package_id = true -> plain_segment version = true ->
  forallb plain_member
    (before ++ MFile (rel ++ [nm]) (Loads (JObj d)) :: after)%list = true ->
  path_exists (fs w) (package_dir_of self package_id version) = false ->
  install_package self package_id version w = (Ok p, w') ->
  fst (find_download_url self package_id version w) = Ok (JStr u) ->
  remote w u = Some resp ->
  served_archive u resp
  = Some (before ++ MFile (rel ++ [nm]) (Loads (JObj d)) :: after)%list ->
  Forall (fun m => ~ writes_file (rel ++ [nm])%list m) after ->
  endswith nm ".json" = true ->
  get_default d "resourceType" (JStr "unknown") = JStr t ->
  In t seven_keys ->
  build_resource_index self (fs w') package_id version = Ok index ->
  In (typed_record d (package_dir_of self package_id version ++ rel ++ [nm])%list)
     (bucket index t).
Proof.
  intros _ _ _ Hno Hi Hu Hr Ha Hafter Hjson Ht Hkey Hb.
  pose proof (install_places_file _ _ _ _ _ _ _ _ _ _ _ _ Hno Hi Hu Hr Ha Hafter) as Hl.
  eapply build_resource_index_holds; [exact Hb | exact Hjson |].
  unfold filed_under, load. rewrite Hl, Ht. cbn [key_in py_str].
  change seven_keys with (map fst new_index) in Hkey.
  apply assoc_in_keys in Hkey. destruct Hkey as [rs ->]. reflexivity.
Qed.

Lemma install_then_indexed_witness :
  exists index,
    build_resource_index manager
      (fs (snd (install_package manager "core" "1.0.0" serving_zip))) "core" "1.0.0"
    = Ok index /\
    In (typed_record vs1 (core_dir ++ [] ++ ["ValueSet-vs1.json"])%list)
       (bucket index "ValueSet").
Proof.
  eexists. split; [reflexivity |].
  apply (install_then_indexed manager "core" "1.0.0" serving_zip core_dir
           (snd (install_package manager "core" "1.0.0" serving_zip))
           "https://packages.fhir.org/core/-/core-1.0.0.zip"
           {| status_ok := true; body_json := None; body_tar := None;
              body_zip := Some [MFile ["package.json"] (Loads core_manifest);
                                MFile ["ValueSet-vs1.json"] (Loads (JObj vs1))] |}
           [] "ValueSet-vs1.json" vs1 "ValueSet"
           [MFile ["package.json"] (Loads core_manifest)] []);
    try reflexivity.
  - constructor.
  - simpl. tauto.
Defined.

(** What the record of a filed candidate carries. *)
Lemma filed_under_record fs f k r :
  filed_under fs f = Some (k, r) ->
  parsed fs f = true /\
  get r "file_path" = JStr (path_str f) /\
  assoc "id" r <> None.
Proof.
  unfold filed_under, parsed.
  destruct (load fs f) as [[| b | t | s | l | d] | e]; try discriminate.
  destruct (key_in _ new_index) as [[|] |]; intros [= _ <-];
    repeat split; discriminate.
Qed.

(** X21: when [build_resource_index] returns, every record of every
    bucket comes from an entry of the enumeration that parsed, and
    carries the text of that entry's path as [file_path]. *)
Theorem index_records_point_to_files self fs package_id version index k r :
  build_resource_index self fs package_id version = Ok index ->
  In r (bucket index k) ->
  exists f,
    In f (get_resource_files self fs package_id version None) /\
    parsed fs f = true /\
    filed_under fs f = Some (k, r) /\
    get r "file_path" = JStr (path_str f).
Proof.
  intros Hb Hin. destruct (build_resource_index_buckets _ _ _ _ _ Hb) as [Hk Hbuckets].
  unfold bucket in Hin. destruct (assoc k index) as [rs |] eqn:Ha; [| contradiction].
  assert (Hkey : In k seven_keys).
  { rewrite <- Hk. apply assoc_in_keys. eauto. }
  rewrite (Hbuckets k Hkey) in Ha. injection Ha as <-.
  apply records_for_in in Hin. destruct Hin as (f & Hf & Hfiled).
  exists f. destruct (filed_under_record _ _ _ _ Hfiled) as (Hp & Hpath & _). auto.
Qed.

Lemma index_records_point_to_files_witness :
  exists index r f,
    build_resource_index manager scenario_a "core" "1.0.0" = Ok index /\
    bucket index "examples" = [r] /\
    In f (get_resource_files manager scenario_a "core" "1.0.0" None) /\
    get r "file_path" = JStr (path_str f).
Proof.
  eexists. eexists.
  destruct (index_records_point_to_files manager scenario_a "core" "1.0.0" _ "examples"
              (example_record (JStr "Patient") [("resourceType", JStr "Patient")]
                 (core_dir // "c.json")) eq_refl)
    as (f & Hf & _ & _ & Hpath).
  - left. reflexivity.
  - exists f. split; [reflexivity |]. split; [reflexivity |]. split; assumption.
Defined.

(* ------------------------------------------------------------------ *)
(** ** What a search returns *)

Lemma seven_keys_nodup : NoDup seven_keys.
Proof.
  unfold seven_keys.
  repeat (constructor; [simpl; intuition discriminate |]). constructor.
Qed.

Lemma assoc_not_in_keys {A : Type} (k : string) (l : list (string * A)) :
  ~ In k (map fst l) -> assoc k l = None.
Proof.
  intros Hno. destruct (assoc k l) as [v |] eqn:Ha; [| reflexivity].
  exfalso. apply Hno. apply assoc_in_keys. eauto.
Qed.

(** The buckets the type filter lets through. *)
Lemma search_index_cons k rs index query resource_type :
  search_index ((k, rs) :: index) query resource_type
  = ((if truthy_arg resource_type &&
         negb (match resource_type with Some t => k =? t | None => false end)
      then []
      else search_bucket query k rs)
     ++ search_index index query resource_type)%list.
Proof. reflexivity. Qed.

Lemma search_index_other_keys index query t :
  t <> EmptyString -> ~ In t (keys index) ->
  search_index index query (Some t) = [].
Proof.
  intros Hne. apply String.eqb_neq in Hne.
  induction index as [| [k rs] index IH]; intros Hno; [reflexivity |].
  rewrite search_index_cons. simpl in Hno. unfold truthy_arg. rewrite Hne. simpl.
  eqb_cases k t; [tauto |]. simpl. apply IH. tauto.
Qed.

(** With a type filter the search is the inner loop over that bucket. *)
Lemma search_index_one_bucket index query t :
  NoDup (keys index) -> t <> EmptyString ->
  search_index index query (Some t) = search_bucket query t (bucket index t).
Proof.
  intros Hnd Hne. pose proof Hne as Hneb. apply String.eqb_neq in Hneb.
  unfold bucket. induction index as [| [k rs] index IH]; [reflexivity |].
  rewrite search_index_cons. simpl in Hnd. inversion Hnd as [| k' ks Hk Hks]; subst.
  unfold truthy_arg. rewrite Hneb. cbn [negb andb assoc].
  eqb_cases k t.
  - cbn [negb]. rewrite search_index_other_keys by assumption. apply app_nil_r.
  - cbn [negb app]. now apply IH.
Qed.

(** X22: with a type filter [t] that is not empty, on an index whose
    keys are distinct (as those of a built index are), the search
    returns the records of bucket [t] alone, in the order of the bucket,
    each tagged [t]; narrowed by the query when there is one; and
    nothing, without an error, when [t] is no key of the index. *)
Theorem search_by_type_is_one_bucket index query t :
  NoDup (keys index) -> t <> EmptyString ->
  search_index index query (Some t) = search_bucket query t (bucket index t) /\
  search_index index None (Some t) = map (tagged t) (bucket index t) /\
  (~ In t (keys index) -> search_index index query (Some t) = []).
Proof.
  intros Hnd Hne. split; [now apply search_index_one_bucket |]. split.
  - rewrite search_index_one_bucket by assumption. apply search_bucket_no_query.
  - now apply search_index_other_keys.
Qed.

Lemma search_by_type_is_one_bucket_witness :
  search_index [("ValueSet", [vs1]); ("examples", [])] None (Some "ValueSet")
  = [tagged "ValueSet" vs1] /\
  search_index [("ValueSet", [vs1]); ("examples", [])] (Some "vs") (Some "Patient") = [].
Proof.
  assert (Hnd : NoDup (keys [("ValueSet", [vs1]); ("examples", @nil dict)])).
  { repeat (constructor; [simpl; intuition discriminate |]). constructor. }
  split.
  - destruct (search_by_type_is_one_bucket [("ValueSet", [vs1]); ("examples", [])]
                None "ValueSet" Hnd) as (_ & Hmap & _); [discriminate |].
    exact Hmap.
  - destruct (search_by_type_is_one_bucket [("ValueSet", [vs1]); ("examples", [])]
                (Some "vs") "Patient" Hnd) as (_ & _ & Hnone); [discriminate |].
    apply Hnone. simpl. intuition discriminate.
Defined.

Lemma lower_nonempty q : q <> EmptyString -> lower q <> EmptyString.
Proof. intros Hq H. apply Hq. now apply lower_empty. Qed.

Lemma lower_eq_empty q1 q2 :
  lower q1 = lower q2 -> (q1 =? EmptyString) = (q2 =? EmptyString).
Proof.
  destruct q1, q2; simpl; try reflexivity; discriminate.
Qed.

(** X23: the search does not tell the case of the letters of a query:
    two queries with the same lower-case text return the same records. *)
Theorem search_ignores_query_case index q1 q2 resource_type :
  lower q1 = lower q2 ->
  search_index index (Some q1) resource_type = search_index index (Some q2) resource_type.
Proof.
  intros Hl. unfold search_index. apply flat_map_ext. intros [k rs]. simpl.
  destruct (truthy_arg resource_type && _); [reflexivity |].
  unfold search_bucket. apply flat_map_ext. intros r.
  unfold truthy_arg, query_hits. now rewrite (lower_eq_empty _ _ Hl), Hl.
Qed.

Lemma search_ignores_query_case_witness :
  search_index [("ValueSet", [vs1]); ("examples", [])] (Some "VS1") None
  = search_index [("ValueSet", [vs1]); ("examples", [])] (Some "vs1") None.
Proof.
  apply (search_ignores_query_case [("ValueSet", [vs1]); ("examples", [])] "VS1" "vs1").
  reflexivity.
Defined.

(** Tagging a record leaves what a query looks at as it is. *)
Lemma query_hits_tagged query res_type resource :
  query_hits query (tagged res_type resource) = query_hits query resource.
Proof.
  unfold query_hits, tagged, get_default.
  now rewrite !assoc_set_entry_neq by discriminate.
Qed.

(** X24: a search with a query returns the records the same search
    without the query returns, in the same order, with those left out
    whose [name], [url] and [title] the query does not hit. *)
Theorem search_with_query_filters index query resource_type :
  query <> EmptyString ->
  search_index index (Some query) resource_type
  = filter (query_hits query) (search_index index None resource_type).
Proof.
  intros Hq. apply String.eqb_neq in Hq.
  unfold search_index. rewrite filter_flat_map. apply flat_map_ext. intros [k rs]. simpl.
  destruct (truthy_arg resource_type && _); [reflexivity |].
  rewrite search_bucket_no_query. unfold search_bucket, truthy_arg. rewrite Hq. simpl.
  induction rs as [| r rs IH]; simpl; [reflexivity |].
  rewrite query_hits_tagged, IH. now destruct (query_hits query r).
Qed.

Lemma search_with_query_filters_witness :
  search_index [("ValueSet", [vs1]); ("examples", [])] (Some "x/vs") None
  = filter (query_hits "x/vs")
      (search_index [("ValueSet", [vs1]); ("examples", [])] None None).
Proof.
  apply (search_with_query_filters [("ValueSet", [vs1]); ("examples", [])] "x/vs" None).
  discriminate.
Defined.

(** Every record a search returns is a record of a bucket the type
    filter lets through, tagged with the name of that bucket. *)
Lemma search_index_in index query resource_type r :
  In r (search_index index query resource_type) ->
  exists k rs r0,
    In (k, rs) index /\ In r0 rs /\ r = tagged k r0 /\
    (forall t, resource_type = Some t -> t <> EmptyString -> k = t).
Proof.
  unfold search_index. rewrite in_flat_map. intros ([k rs] & Hb & Hr). simpl in Hr.
  destruct (truthy_arg resource_type && _) eqn:Hf; [contradiction |].
  unfold search_bucket in Hr. apply in_flat_map in Hr. destruct Hr as (r0 & Hr0 & Hr).
  exists k, rs, r0. split; [exact Hb |]. split; [exact Hr0 |]. split.
  - destruct (negb (truthy_arg query)); [destruct Hr as [<- | []]; reflexivity |].
    destruct query as [q |]; [| contradiction].
    destruct (query_hits q r0); [destruct Hr as [<- | []]; reflexivity | contradiction].
  - intros t -> Hne. apply String.eqb_neq in Hne. unfold truthy_arg in Hf.
    rewrite Hne in Hf. simpl in Hf. eqb_cases k t; [reflexivity | discriminate].
Qed.

Lemma filter_pairs_none (k : string) (keep : string * dict -> bool) (rs : list dict) :
  (forall r, keep (k, r) = false) ->
  map (fun kr => tagged (fst kr) (snd kr)) (filter keep (map (pair k) rs)) = [].
Proof.
  intros Hk. induction rs as [| r rs IH]; [reflexivity |].
  cbn [map filter]. now rewrite Hk.
Qed.

Lemma filter_pairs_hits (k : string) (keep : string * dict -> bool) (hit : dict -> bool)
    (rs : list dict) :
  (forall r, keep (k, r) = hit r) ->
  map (fun kr => tagged (fst kr) (snd kr)) (filter keep (map (pair k) rs))
  = flat_map (fun r => if hit r then [tagged k r] else []) rs.
Proof.
  intros Hk. induction rs as [| r rs IH]; [reflexivity |].
  cbn [map filter flat_map]. rewrite Hk.
  destruct (hit r); cbn [map app fst snd]; now rewrite IH.
Qed.

(** The inner loop of a search, as a filter. *)
Lemma search_bucket_pairs query resource_type k rs :
  (if truthy_arg resource_type &&
      negb (match resource_type with Some t => k =? t | None => false end)
   then []
   else search_bucket query k rs)
  = map (fun kr => tagged (fst kr) (snd kr))
      (filter (lets_through query resource_type) (map (pair k) rs)).
Proof.
  unfold truthy_arg, search_bucket.
  destruct resource_type as [t |]; [destruct (t =? EmptyString) eqn:Ht |]; cbn [negb andb].
  all: try (destruct (k =? t) eqn:Hkt; cbn [negb];
            [| symmetry; apply filter_pairs_none; intros r; unfold lets_through;
               cbn [fst snd]; now rewrite Ht, Hkt]).
  all: rewrite (filter_pairs_hits k _
                  (fun r => match query with
                            | Some q => if q =? EmptyString then true else query_hits q r
                            | None => true
                            end))
         by (intros r; unfold lets_through; cbn [fst snd]; now rewrite ?Ht, ?Hkt);
       apply flat_map_ext; intros r; unfold truthy_arg;
       destruct query as [q |]; [destruct (q =? EmptyString) |]; reflexivity.
Qed.

(** A search, as a filter over the records of the index laid flat. *)
Lemma search_index_pairs index query resource_type :
  search_index index query resource_type
  = map (fun kr => tagged (fst kr) (snd kr))
      (filter (lets_through query resource_type) (index_pairs index)).
Proof.
  unfold index_pairs. induction index as [| [k rs] index IH]; [reflexivity |].
  rewrite search_index_cons. cbn [flat_map fst snd].
  now rewrite filter_app, map_app, <- IH, search_bucket_pairs.
Qed.

(** X25: every record a search returns carries as [resourceType] the
    name of the bucket it was taken from, whatever type its file
    declared (so a record from ["examples"] says ["examples"]), and
    every other field as the record of the bucket has it.  Position by
    position: the results are the records of the index, bucket after
    bucket, that pass the filters (the bucket is the type asked for,
    the query hits the record), each reading the name of its bucket as
    [resourceType] and any other field as in the index. *)
Theorem search_results_carry_bucket_name index query resource_type :
  map (fun r => get r "resourceType") (search_index index query resource_type)
  = map (fun kr => JStr (fst kr))
      (filter (lets_through query resource_type) (index_pairs index)) /\
  (forall f, f <> "resourceType" ->
     map (assoc f) (search_index index query resource_type)
     = map (fun kr => assoc f (snd kr))
         (filter (lets_through query resource_type) (index_pairs index))) /\
  (forall r, In r (search_index index query resource_type) ->
     exists k rs r0,
       In (k, rs) index /\ In r0 rs /\
       get r "resourceType" = JStr k /\
       (forall f, f <> "resourceType" -> same_field f r r0) /\
       (forall t, resource_type = Some t -> t <> EmptyString -> k = t)).
Proof.
  split; [| split].
  - rewrite search_index_pairs, map_map. apply map_ext. intros [k r0]. apply get_tagged.
  - intros f Hf. rewrite search_index_pairs, map_map. apply map_ext. intros [k r0].
    now apply tagged_same_field.
  - intros r Hin. apply search_index_in in Hin.
    destruct Hin as (k & rs & r0 & Hb & Hr0 & -> & Ht).
    exists k, rs, r0. split; [exact Hb |]. split; [exact Hr0 |].
    split; [apply get_tagged |]. split; [| exact Ht].
    intros f Hf. now apply tagged_same_field.
Qed.

Lemma search_results_carry_bucket_name_witness :
  map (fun r => get r "resourceType")
    (search_index
       [("ValueSet", [vs1]);
        ("examples", [[("resourceType", JStr "Patient"); ("id", JNull)]])]
       None (Some "examples"))
  = [JStr "examples"] /\
  map (assoc "id")
    (search_index
       [("ValueSet", [vs1]);
        ("examples", [[("resourceType", JStr "Patient"); ("id", JNull)]])]
       None None)
  = [Some (JStr "vs1"); Some JNull].
Proof.
  split.
  - destruct (search_results_carry_bucket_name
                [("ValueSet", [vs1]);
                 ("examples", [[("resourceType", JStr "Patient"); ("id", JNull)]])]
                None (Some "examples")) as (Htags & _).
    exact Htags.
  - destruct (search_results_carry_bucket_name
                [("ValueSet", [vs1]);
                 ("examples", [[("resourceType", JStr "Patient"); ("id", JNull)]])]
                None None) as (_ & Hfields & _).
    apply (Hfields "id"). discriminate.
Defined.

Lemma in_assoc_nodup {A : Type} (k : string) (v : A) (l : list (string * A)) :
  NoDup (map fst l) -> In (k, v) l -> assoc k l = Some v.
Proof.
  induction l as [| [k' v'] l IH]; simpl; [contradiction |].
  intros Hnd [[= -> ->] | Hin].
  - now rewrite String.eqb_refl.
  - inversion Hnd as [| x xs Hx Hxs]; subst. eqb_cases k' k.
    + exfalso. apply Hx. apply in_map_iff. exists (k, v). auto.
    + now apply IH.
Qed.

(** X26: for every record [search_resources] returns, the name the
    [search] command of [main] shows is the record's [name] when that
    is not empty or false, and the record's [id] otherwise: every such
    record has an [id] key, so the fallback ["unknown"] is never taken,
    and a resource without name and id is shown by the [None] of its id. *)
Theorem shown_name_is_name_or_id self fs package_id version query resource_type results r :
  search_resources self fs package_id version query resource_type = Ok results ->
  In r results ->
  assoc "id" r <> None /\
  result_name r = py_or (get r "name") (get r "id").
Proof.
  unfold search_resources.
  destruct (build_resource_index self fs package_id version) as [index |] eqn:Hb;
    [| discriminate].
  intros [= <-] Hin. apply search_index_in in Hin.
  destruct Hin as (k & rs & r0 & Hbk & Hr0 & -> & _).
  destruct (build_resource_index_buckets _ _ _ _ _ Hb) as [Hk Hbuckets].
  assert (Ha : assoc k index = Some rs).
  { apply in_assoc_nodup; [| exact Hbk]. fold (keys index). rewrite Hk.
    apply seven_keys_nodup. }
  assert (Hkey : In k seven_keys).
  { rewrite <- Hk. apply assoc_in_keys. eauto. }
  rewrite (Hbuckets k Hkey) in Ha. injection Ha as <-.
  apply records_for_in in Hr0. destruct Hr0 as (f & _ & Hfiled).
  destruct (filed_under_record _ _ _ _ Hfiled) as (_ & _ & Hid).
  assert (Hid' : assoc "id" (tagged k r0) = assoc "id" r0)
    by (unfold tagged; now rewrite assoc_set_entry_neq by discriminate).
  split; [now rewrite Hid' |].
  unfold result_name, get, get_default. rewrite Hid'.
  now destruct (assoc "id" r0).
Qed.

Lemma shown_name_is_name_or_id_witness :
  result_name
    (tagged "examples"
       (example_record (JStr "Patient") [("resourceType", JStr "Patient")]
          (core_dir // "c.json")))
  = py_or JNull JNull.
Proof.
  destruct (shown_name_is_name_or_id manager scenario_a "core" "1.0.0" None (Some "examples")
              _ (tagged "examples"
                   (example_record (JStr "Patient") [("resourceType", JStr "Patient")]
                      (core_dir // "c.json"))) eq_refl) as [_ Hname].
  - left. reflexivity.
  - exact Hname.
Defined.

(* ------------------------------------------------------------------ *)
(** ** The constructor *)

(** X27: when the constructor returns, the registry is
    [https://packages.fhir.org], the cache root is a directory (made
    with its parents when it was not there), no directory that existed
    is gone, no request was made, and [list_installed] on the new
    manager returns a list. *)
Theorem init_makes_cache_root home dir w self w' :
  init home dir w = (Ok self, w') ->
  registry_url self = "https://packages.fhir.org" /\
  cache_dir self = match dir with
                   | Some d => d
                   | None => home // ".fhir" // "packages"
                   end /\
  is_dir (fs w') (cache_dir self) = true /\
  keeps_dirs (fs w) (fs w') /\
  requests w' = requests w /\
  exists packages, list_installed self (fs w') = Ok packages.
Proof.
  unfold init, bind, mkdir, ret.
  set (root := match dir with Some d => d | None => home // ".fhir" // "packages" end).
  destruct (mkdir_p (fs w) root) as [n |] eqn:Hmk; [| discriminate].
  intros [= <- <-]. cbn [registry_url cache_dir fs requests with_fs].
  assert (Hd : is_dir n root = true) by (eapply mkdir_p_is_dir; eauto).
  repeat (split; [reflexivity |]). split; [exact Hd |].
  split; [eapply mkdir_p_keeps_dirs; eauto |]. split; [reflexivity |].
  apply (list_installed_of_dir
           {| cache_dir := root; registry_url := "https://packages.fhir.org" |} n).
  exact Hd.
Qed.

Lemma init_makes_cache_root_witness :
  is_dir (fs offline_empty) (cache_dir manager) = true /\
  exists packages, list_installed manager (fs offline_empty) = Ok packages.
Proof.
  destruct (init_makes_cache_root ["home"; "user"] None
              {| fs := Dir [("home", Dir [("user", Dir [])])];
                 remote := fun _ => None; requests := [] |}
              manager offline_empty eq_refl) as (_ & _ & Hd & _ & _ & Hl).
  split; [exact Hd | exact Hl].
Defined.
